(** * Two-pass assembler of the 16-bit-instruction, 8-register CPU

    A shallow embedding of [tools/assembler.py] (class [Assembler]) and the
    properties of its label resolution and instruction encoding.

    Modelling conventions.
    - A Python [str] is a [string]; source text is taken to be ASCII (for code
      points of 128 and above the model makes no claim: they are inert here).
    - A Python [int] is a [Z]; [<<] is [Z.shiftl] and [|] is [Z.lor], which
      agree with Python on negative numbers as well.
    - A raised exception is a value of [exn]; a method that may raise returns
      [res A].
    - [self.labels] is a [gmap string Z]; the methods that mutate it take the
      table and return the new one. *)

From Stdlib Require Import ZArith Ascii String List Lia.
From Stdlib Require Import DecimalString DecimalPos.
From Stdlib Require HexadecimalString.
From stdpp Require Import gmap strings list.

Local Open Scope Z_scope.

(** ** Python's [str] operations used by the assembler *)

Module PyStr.

(** [str.isspace] on one ASCII character: TAB..CR, FS..US and the space. *)
Definition isspace (c : ascii) : bool :=
  let n := N_of_ascii c in
  ((9 <=? n) && (n <=? 13) || (28 <=? n) && (n <=? 32))%N.

(** [c.upper()] for one ASCII character. *)
Definition upper_char (c : ascii) : ascii :=
  let n := N_of_ascii c in
  if ((97 <=? n) && (n <=? 122))%N then ascii_of_N (n - 32) else c.

(** [s.upper()] *)
Fixpoint upper (s : string) : string :=
  match s with
  | EmptyString => EmptyString
  | String c s' => String (upper_char c) (upper s')
  end.

(** [s.lstrip()] *)
Fixpoint lstrip (s : string) : string :=
  match s with
  | EmptyString => EmptyString
  | String c s' => if isspace c then lstrip s' else s
  end.

(** [s.rstrip()] *)
Fixpoint rstrip (s : string) : string :=
  match s with
  | EmptyString => EmptyString
  | String c s' =>
      match rstrip s' with
      | EmptyString => if isspace c then EmptyString else String c EmptyString
      | r => String c r
      end
  end.

(** [s.strip()] *)
Definition strip (s : string) : string := rstrip (lstrip s).

(** [c in s] for a one-character [c]. *)
Fixpoint contains (c : ascii) (s : string) : bool :=
  match s with
  | EmptyString => false
  | String d s' => if Ascii.eqb c d then true else contains c s'
  end.

(** [s.startswith(p)] *)
Definition startswith (p s : string) : bool := String.prefix p s.

(** The last character of [s], if any. *)
Fixpoint last_char (s : string) : option ascii :=
  match s with
  | EmptyString => None
  | String c EmptyString => Some c
  | String _ s' => last_char s'
  end.

(** [s.endswith(c)] for a one-character [c]. *)
Definition endswith (c : ascii) (s : string) : bool :=
  match last_char s with
  | Some d => Ascii.eqb c d
  | None => false
  end.

(** [s[:-1]] *)
Fixpoint drop_last (s : string) : string :=
  match s with
  | EmptyString => EmptyString
  | String _ EmptyString => EmptyString
  | String c s' => String c (drop_last s')
  end.

(** [s[1:-1]] *)
Definition slice_1_m1 (s : string) : string :=
  match s with
  | EmptyString => EmptyString
  | String _ s' => drop_last s'
  end.

(** Puts [c] in front of the first piece of a split. *)
Definition cons_head (c : ascii) (l : list string) : list string :=
  match l with
  | [] => [String c EmptyString]
  | h :: t => String c h :: t
  end.

(** [s.split(sep)] for a one-character separator: never the empty list. *)
Fixpoint split (sep : ascii) (s : string) : list string :=
  match s with
  | EmptyString => [EmptyString]
  | String c s' =>
      if Ascii.eqb c sep then EmptyString :: split sep s'
      else cons_head c (split sep s')
  end.

(** [s.split(sep, 1)]: cut at the first separator only. *)
Fixpoint split1 (sep : ascii) (s : string) : list string :=
  match s with
  | EmptyString => [EmptyString]
  | String c s' =>
      if Ascii.eqb c sep then [EmptyString; s']
      else cons_head c (split1 sep s')
  end.

(** The character class [[,\s]] of the tokenizer's regular expression. *)
Definition is_sep (c : ascii) : bool := Ascii.eqb c "," || isspace c.

(** [re.split(r'[,\s]+', s)]: the pieces between maximal runs of separator
    characters; [in_run] says that the previous character was a separator. *)
Fixpoint re_split_from (in_run : bool) (s : string) : list string :=
  match s with
  | EmptyString => [EmptyString]
  | String c s' =>
      if is_sep c then
        if in_run then re_split_from true s'
        else EmptyString :: re_split_from true s'
      else cons_head c (re_split_from false s')
  end.

Definition re_split (s : string) : list string := re_split_from false s.

(** Truthiness of a string: [if s:]. *)
Definition nonempty (s : string) : bool :=
  match s with EmptyString => false | _ => true end.

(** Every character of [s] satisfies [p]. *)
Fixpoint all_chars (p : ascii -> bool) (s : string) : bool :=
  match s with
  | EmptyString => true
  | String c s' => p c && all_chars p s'
  end.

(** The decimal digits [0-9]. *)
Definition is_decimal (c : ascii) : bool :=
  let n := N_of_ascii c in ((48 <=? n) && (n <=? 57))%N.

(** [sep.join(l)] *)
Fixpoint join (sep : string) (l : list string) : string :=
  match l with
  | [] => EmptyString
  | [x] => x
  | x :: rest => x +:+ sep +:+ join sep rest
  end.

(** [s * n]: the empty string when [n] is not positive. *)
Definition repeat_str (s : string) (n : Z) : string :=
  Nat.iter (Z.to_nat n) (String.append s) EmptyString.

(** [s.rjust(width, fill)] *)
Definition rjust (s : string) (width : Z) (fill : ascii) : string :=
  repeat_str (String fill EmptyString) (width - Z.of_nat (String.length s))
  +:+ s.

(** [s] without its first [n] characters. *)
Fixpoint drop (n : nat) (s : string) : string :=
  match n, s with
  | O, _ => s
  | S n', String _ s' => drop n' s'
  | S _, EmptyString => EmptyString
  end.

(** [s[start:]], with Python's reading of a negative [start]. *)
Definition slice_from (start : Z) (s : string) : string :=
  let len := Z.of_nat (String.length s) in
  drop (Z.to_nat (if start <? 0 then Z.max (len + start) 0 else start)) s.

End PyStr.

(** ** Exceptions and results *)

(** The two exception classes that the assembler's methods can raise, each
    with its message ([str(e)]). *)
Inductive exn : Type :=
| ValueError (msg : string)
| IndexError (msg : string).

Definition exn_str (e : exn) : string :=
  match e with
  | ValueError msg => msg
  | IndexError msg => msg
  end.

(** The outcome of a call: a returned value or a raised exception. *)
Inductive res (A : Type) : Type :=
| Ok (a : A)
| Raise (e : exn).

Arguments Ok {A} a.
Arguments Raise {A} e.

Definition bind {A B : Type} (r : res A) (k : A -> res B) : res B :=
  match r with
  | Ok a => k a
  | Raise e => Raise e
  end.

Notation "'let*' x := r 'in' k" := (bind r (fun x => k))
  (at level 10, x name, r at level 100, k at level 200).

Definition is_ok {A : Type} (r : res A) : bool :=
  match r with Ok _ => true | Raise _ => false end.

(** ** Python's [int(s, base)], [str(n)] and [repr(s)] *)

Module PyInt.

(** The value of a character as a digit, as in CPython's digit table:
    [0-9], then [a-z] and [A-Z] for 10..35. *)
Definition digit_value (c : ascii) : option Z :=
  let n := Z.of_N (N_of_ascii c) in
  if (48 <=? n) && (n <=? 57) then Some (n - 48)
  else if (97 <=? n) && (n <=? 122) then Some (n - 87)
  else if (65 <=? n) && (n <=? 90) then Some (n - 55)
  else None.

Inductive scan_state : Type := NoDigit | AfterDigit | AfterUnderscore.

(** The digit run of an integer literal: digits below [base], with single
    underscores allowed between digits only.  Returns the value and the text
    after the run; [None] when the run is empty, starts or ends with an
    underscore, or has two underscores in a row. *)
Fixpoint scan_digits (base : Z) (s : string) (st : scan_state) (acc : Z)
  : option (Z * string) :=
  match s with
  | EmptyString =>
      match st with AfterDigit => Some (acc, EmptyString) | _ => None end
  | String c s' =>
      if Ascii.eqb c "_" then
        match st with
        | AfterDigit => scan_digits base s' AfterUnderscore acc
        | _ => None
        end
      else
        match digit_value c with
        | Some d =>
            if d <? base then scan_digits base s' AfterDigit (acc * base + d)
            else match st with AfterDigit => Some (acc, s) | _ => None end
        | None => match st with AfterDigit => Some (acc, s) | _ => None end
        end
  end.

(** An optional sign. *)
Definition take_sign (s : string) : bool * string :=
  match s with
  | String "+" r => (false, r)
  | String "-" r => (true, r)
  | _ => (false, s)
  end.

(** The base prefix that [int] accepts for an explicit base 16, 8 or 2,
    followed by at most one underscore. *)
Definition take_prefix (base : Z) (s : string) : string :=
  match s with
  | String "0" (String c r) =>
      let x := PyStr.upper_char c in
      if (base =? 16) && Ascii.eqb x "X"
         || (base =? 8) && Ascii.eqb x "O"
         || (base =? 2) && Ascii.eqb x "B"
      then match r with String "_" r' => r' | _ => r end
      else s
  | _ => s
  end.

(** [int(s, base)] for [2 <= base <= 36], [None] standing for the
    [ValueError]: surrounding whitespace, a sign, the base prefix, the digit
    run, and nothing else.  (CPython's cap on the length of a decimal
    literal, 4300 digits by default, is not modelled.) *)
Definition parse (s : string) (base : Z) : option Z :=
  let '(neg, s1) := take_sign (PyStr.lstrip s) in
  match scan_digits base (take_prefix base s1) NoDigit 0 with
  | Some (v, rest) =>
      match PyStr.lstrip rest with
      | EmptyString => Some (if neg then - v else v)
      | _ => None
      end
  | None => None
  end.

(** [str(n)]: decimal digits, with a minus sign for a negative number. *)
Definition str (n : Z) : string := NilZero.string_of_int (Z.to_int n).

Definition hex_digit (n : N) : ascii :=
  if (n <? 10)%N then ascii_of_N (48 + n) else ascii_of_N (87 + n).

(** One character of [repr(s)] with [q] the chosen quote character. *)
Definition repr_char (q c : ascii) : string :=
  let n := N_of_ascii c in
  if Ascii.eqb c q || Ascii.eqb c "\" then String "\" (String c EmptyString)
  else if (n =? 9)%N then "\t"
  else if (n =? 10)%N then "\n"
  else if (n =? 13)%N then "\r"
  else if ((n <? 32) || (n =? 127))%N then
    String "\" (String "x" (String (hex_digit (n / 16))
                             (String (hex_digit (n mod 16)) EmptyString)))
  else String c EmptyString.

Fixpoint repr_body (q : ascii) (s : string) : string :=
  match s with
  | EmptyString => EmptyString
  | String c s' => repr_char q c +:+ repr_body q s'
  end.

(** [repr(s)] of an ASCII string: single quotes, unless the text has a single
    quote and no double quote. *)
Definition repr (s : string) : string :=
  let dq : ascii := "034"%char in
  let q : ascii :=
    if PyStr.contains "'"%char s && negb (PyStr.contains dq s)
    then dq else "'"%char in
  String q (repr_body q s +:+ String q EmptyString).

(** [int(s, base)], raising as Python does. *)
Definition int (s : string) (base : Z) : res Z :=
  match parse s base with
  | Some v => Ok v
  | None =>
      Raise (ValueError ("invalid literal for int() with base " +:+ str base
                         +:+ ": " +:+ repr s))
  end.

(** The digits of [format(n, 'X')] for a natural number [n]. *)
Definition hex_upper (n : N) : string :=
  PyStr.upper (HexadecimalString.NilZero.string_of_uint (N.to_hex_uint n)).

(** [format(n, '04X')]: upper-case hexadecimal, padded with zeros after the
    sign up to four characters. *)
Definition format_04X (n : Z) : string :=
  let digits := hex_upper (Z.abs_N n) in
  let sign := if n <? 0 then "-" else EmptyString in
  sign
  +:+ PyStr.repeat_str "0"
        (4 - Z.of_nat (String.length sign) - Z.of_nat (String.length digits))
  +:+ digits.

End PyInt.

(** ** The assembler ([tools/assembler.py]) *)

(** Instruction opcodes. *)
Definition OPCODES : gmap string Z :=
  list_to_map
    [("LOADI", 0x0); ("ADD", 0x1); ("SUB", 0x2); ("AND", 0x3); ("OR", 0x4);
     ("XOR", 0x5); ("STORE", 0x6); ("LOAD", 0x7); ("SHL", 0x8); ("SHR", 0x9);
     ("MOV", 0xA); ("CMP", 0xB); ("JUMP", 0xC); ("JZ", 0xD); ("JNZ", 0xE);
     ("NOT", 0xF); ("HALT", 0xF); ("PUSH", 0xE); ("POP", 0xE); ("MUL", 0xD);
     ("DIV", 0xD); ("IN", 0xE); ("OUT", 0xE); ("RETI", 0xF)].

(** Register names. *)
Definition REGISTERS : gmap string Z :=
  list_to_map
    [("R0", 0); ("R1", 1); ("R2", 2); ("R3", 3);
     ("R4", 4); ("R5", 5); ("R6", 6); ("R7", 7)].

(** [Assembler.parse_register]: register name to number. *)
Definition parse_register (reg_str : string) : res Z :=
  let reg_str := PyStr.upper (PyStr.strip reg_str) in
  match REGISTERS !! reg_str with
  | Some r => Ok r
  | None => Raise (ValueError ("Invalid register: " +:+ reg_str))
  end.

(** [Assembler.parse_immediate]: immediate value in hexadecimal, binary or
    decimal, with one pair of enclosing brackets removed. *)
Definition parse_immediate (imm_str : string) : res Z :=
  let imm_str := PyStr.strip imm_str in
  let imm_str :=
    if PyStr.startswith "[" imm_str && PyStr.endswith "]" imm_str
    then PyStr.slice_1_m1 imm_str else imm_str in
  if PyStr.startswith "0x" imm_str || PyStr.startswith "0X" imm_str
  then PyInt.int imm_str 16
  else if PyStr.startswith "0b" imm_str || PyStr.startswith "0B" imm_str
  then PyInt.int imm_str 2
  else PyInt.int imm_str 10.

(** [operands[i]] *)
Definition getitem (operands : list string) (i : nat) : res string :=
  match nth_error operands i with
  | Some op => Ok op
  | None => Raise (IndexError "list index out of range")
  end.

(** [self.parse_register(operands[i])] *)
Definition register_at (operands : list string) (i : nat) : res Z :=
  let* op := getitem operands i in parse_register op.

(** [self.parse_immediate(operands[i])] *)
Definition immediate_at (operands : list string) (i : nat) : res Z :=
  let* op := getitem operands i in parse_immediate op.

(** [(opcode << 12) | (reg1 << 9) | (reg2 << 6) | imm] *)
Definition pack (opcode reg1 reg2 imm : Z) : Z :=
  Z.lor (Z.lor (Z.lor (Z.shiftl opcode 12) (Z.shiftl reg1 9))
               (Z.shiftl reg2 6)) imm.

(** The 6-bit range check of the immediate and address fields, with the
    message's subject ([Immediate value], [Address] or [Jump address]). *)
Definition check_6bit (what : string) (v : Z) : res unit :=
  if v >? 63
  then Raise (ValueError (what +:+ " " +:+ PyInt.str v
                          +:+ " exceeds 6-bit range (0-63)"))
  else Ok tt.

(** The [if]/[elif] chain of [Assembler.encode_instruction], entered once
    the opcode lookup has succeeded. *)
Definition encode_rule (mnemonic : string) (opcode : Z)
    (operands : list string) : res Z :=
  if String.eqb mnemonic "LOADI" then
    let* rd := register_at operands 0 in
    let* imm := immediate_at operands 1 in
    let* _ := check_6bit "Immediate value" imm in
    Ok (pack opcode rd 0 imm)
  else if String.eqb mnemonic "ADD" then
    let* rd := register_at operands 0 in
    let* rs1 := register_at operands 1 in
    let* rs2 := register_at operands 2 in
    Ok (pack opcode rs1 rd 0)
  else if String.eqb mnemonic "SUB" then
    let* rd := register_at operands 0 in
    let* rs1 := register_at operands 1 in
    let* rs2 := register_at operands 2 in
    Ok (pack opcode rs1 rd 0)
  else if String.eqb mnemonic "STORE" then
    let* rs := register_at operands 0 in
    let* addr := immediate_at operands 1 in
    let* _ := check_6bit "Address" addr in
    Ok (pack opcode rs 0 addr)
  else if String.eqb mnemonic "LOAD" then
    let* rd := register_at operands 0 in
    let* addr := immediate_at operands 1 in
    let* _ := check_6bit "Address" addr in
    Ok (pack opcode rd 0 addr)
  else if String.eqb mnemonic "JUMP" then
    let* addr := immediate_at operands 0 in
    let* _ := check_6bit "Jump address" addr in
    Ok (pack opcode 0 0 addr)
  else if String.eqb mnemonic "JZ" then
    let* rs := register_at operands 0 in
    let* addr := immediate_at operands 1 in
    let* _ := check_6bit "Jump address" addr in
    Ok (pack opcode rs 0 addr)
  else if String.eqb mnemonic "JNZ" then
    let* rs := register_at operands 0 in
    let* addr := immediate_at operands 1 in
    let* _ := check_6bit "Jump address" addr in
    Ok (pack opcode rs 0 addr)
  else if String.eqb mnemonic "PUSH" then
    let* rs := register_at operands 0 in
    Ok (pack 0xE rs 0 0)
  else if String.eqb mnemonic "POP" then
    let* rd := register_at operands 0 in
    Ok (pack 0xE rd 1 0)
  else if String.eqb mnemonic "MUL" then
    let* rd := register_at operands 0 in
    let* rs1 := register_at operands 1 in
    let* rs2 := register_at operands 2 in
    Ok (pack 0xD rs1 rd 0)
  else if String.eqb mnemonic "HALT" then Ok 0xF000
  else if String.eqb mnemonic "RETI" then Ok 0xF001
  else
    Raise (ValueError ("Instruction encoding not implemented: " +:+ mnemonic)).

(** [Assembler.encode_instruction]: one instruction to its 16-bit word. *)
Definition encode_instruction (mnemonic : string) (operands : list string)
  : res Z :=
  let mnemonic := PyStr.upper mnemonic in
  match OPCODES !! mnemonic with
  | None => Raise (ValueError ("Unknown instruction: " +:+ mnemonic))
  | Some opcode => encode_rule mnemonic opcode operands
  end.

(** A parsed line: mnemonic, operands, label ([None] when there is none). *)
Definition parsed : Type := string * list string * option string.

(** The tokenizing half of [assemble_line]: mnemonic and operands of a
    statement. *)
Definition parse_statement (line : string) (label : option string) : parsed :=
  let parts := PyStr.re_split line in
  let mnemonic := PyStr.upper (hd EmptyString parts) in
  let operands :=
    map PyStr.strip
      (List.filter (fun p => PyStr.nonempty (PyStr.strip p)) (tl parts)) in
  (mnemonic, operands, label).

(** [Assembler.assemble_line]: parse a single line of assembly; [None] for a
    blank or comment-only line. *)
Definition assemble_line (line : string) : option parsed :=
  let line := PyStr.strip (hd EmptyString (PyStr.split ";" line)) in
  if negb (PyStr.nonempty line) then None
  else if PyStr.contains ":" line then
    let parts := PyStr.split1 ":" line in
    let label := PyStr.strip (nth 0 parts EmptyString) in
    let line := PyStr.strip (nth 1 parts EmptyString) in
    if negb (PyStr.nonempty line) then Some ("LABEL", [label], None)
    else Some (parse_statement line (Some label))
  else Some (parse_statement line None).

(** First pass of [Assembler.assemble]: collect labels. *)
Fixpoint first_pass (lines : list string) (labels : gmap string Z)
    (address : Z) : gmap string Z :=
  match lines with
  | [] => labels
  | line :: rest =>
      match assemble_line line with
      | None => first_pass rest labels address
      | Some (mnemonic, operands, label) =>
          let labels :=
            match label with
            | Some l => if PyStr.nonempty l then <[l := address]> labels
                        else labels
            | None => labels
            end in
          let address :=
            if negb (String.eqb mnemonic "LABEL") then address + 1
            else address in
          first_pass rest labels address
      end
  end.

(** Replace labels with addresses. *)
Definition replace_labels (labels : gmap string Z) (operands : list string)
  : list string :=
  map (fun op => match labels !! op with
                 | Some a => PyInt.str a
                 | None => op
                 end) operands.

(** Second pass of [Assembler.assemble]: encode instructions. *)
Fixpoint second_pass (labels : gmap string Z) (lines : list string)
    (address : Z) (instructions : list (Z * Z)) : res (list (Z * Z)) :=
  match lines with
  | [] => Ok instructions
  | line :: rest =>
      match assemble_line line with
      | None => second_pass labels rest address instructions
      | Some (mnemonic, operands, label) =>
          if String.eqb mnemonic "LABEL"
          then second_pass labels rest address instructions
          else
            let operands := replace_labels labels operands in
            match encode_instruction mnemonic operands with
            | Ok instruction =>
                second_pass labels rest (address + 1)
                  (instructions ++ [(address, instruction)])
            | Raise e =>
                Raise (ValueError ("Error at address " +:+ PyInt.str address
                                   +:+ ": " +:+ exn_str e))
            end
      end
  end.

(** [source.split('\n')] *)
Definition source_lines (source : string) : list string :=
  PyStr.split "010" source.

(** [Assembler.assemble] on an assembler whose label table is [labels]:
    the label table after the call, and the encoded instructions or the
    raised error. *)
Definition assemble (labels : gmap string Z) (source : string)
  : gmap string Z * res (list (Z * Z)) :=
  let lines := source_lines source in
  let labels := first_pass lines labels 0 in
  (labels, second_pass labels lines 0 []).

(** A fresh [Assembler()] has an empty label table. *)
Definition init_labels : gmap string Z := ∅.

(** Text of a program given line by line. *)
Fixpoint unlines (ls : list string) : string :=
  match ls with
  | [] => EmptyString
  | [l] => l
  | l :: rest => l +:+ String "010" (unlines rest)
  end.

(** The fixed head of the block that [format_verilog] writes. *)
Definition verilog_header : list string :=
  ["    // Initialize all memory to 0";
   "    for (i = 0; i < 256; i = i + 1) begin";
   "        memory[i] = 16'b0000000000000000;";
   "    end";
   "";
   "    // Program instructions"].

(** The line that [format_verilog] writes for one instruction. *)
Definition verilog_line (instruction : Z * Z) : string :=
  let '(addr, inst) := instruction in
  "    memory[" +:+ PyInt.str addr +:+ "] = 16'h" +:+ PyInt.format_04X inst
  +:+ ";".

(** [Assembler.format_verilog]: instructions as a Verilog initial block. *)
Definition format_verilog (instructions : list (Z * Z)) : string :=
  PyStr.join (String "010" EmptyString)
    (verilog_header ++ map verilog_line instructions).

(** ** The compiler front end ([tools/advanced_compiler.py]) *)

Module AdvancedCompiler.

(** One round of the loop of [AdvancedCompiler.parse]: [None] where the
    loop continues without appending. *)
Definition parse_line (line : string) : option parsed :=
  let line := PyStr.strip (hd EmptyString (PyStr.split ";" line)) in
  if negb (PyStr.nonempty line) then None
  else if PyStr.contains ":" line then
    let parts := PyStr.split1 ":" line in
    let label := PyStr.strip (nth 0 parts EmptyString) in
    let line := PyStr.strip (nth 1 parts EmptyString) in
    if negb (PyStr.nonempty line) then Some ("LABEL", [], Some label)
    else Some (parse_statement line None)
  else Some (parse_statement line None).

(** [AdvancedCompiler.parse]: source code to instructions. *)
Definition parse (source : string) : list parsed :=
  omap parse_line (source_lines source).

(** The label collection loop of [AdvancedCompiler.compile]. *)
Fixpoint collect_symbols (instructions : list parsed)
    (symbols : gmap string Z) (address : Z) : gmap string Z :=
  match instructions with
  | [] => symbols
  | (mnemonic, operands, label) :: rest =>
      let symbols :=
        match label with
        | Some l => if PyStr.nonempty l then <[l := address]> symbols
                    else symbols
        | None => symbols
        end in
      let address :=
        if negb (String.eqb mnemonic "LABEL") then address + 1
        else address in
      collect_symbols rest symbols address
  end.

(** One round of the loop of [constant_folding]: [ADD R1, 5, 10] becomes
    [LOADI R1, 15]; a [ValueError] of [int] leaves the instruction alone. *)
Definition fold_constant (instruction : parsed) : parsed :=
  let '(mnemonic, operands, label) := instruction in
  if String.eqb mnemonic "ADD" && Nat.eqb (length operands) 3 then
    match PyInt.parse (nth 1 operands EmptyString) 10 with
    | Some op1 =>
        match PyInt.parse (nth 2 operands EmptyString) 10 with
        | Some op2 =>
            let result := op1 + op2 in
            if (0 <=? result) && (result <=? 63)
            then ("LOADI",
                  [nth 0 operands EmptyString; PyInt.str result], None)
            else instruction
        | None => instruction
        end
    | None => instruction
    end
  else instruction.

(** [AdvancedCompiler.constant_folding] *)
Definition constant_folding (instructions : list parsed) : list parsed :=
  map fold_constant instructions.

(** The labels that [dead_code_elimination] takes as referenced: the first
    operand of a jump, when it is a key of [symbols]. *)
Fixpoint referenced_labels (symbols : gmap string Z)
    (instructions : list parsed) : gset string :=
  match instructions with
  | [] => ∅
  | (mnemonic, operands, label) :: rest =>
      let here : gset string :=
        if String.eqb mnemonic "JUMP" || String.eqb mnemonic "JZ"
           || String.eqb mnemonic "JNZ"
        then match operands with
             | op :: _ => if bool_decide (is_Some (symbols !! op))
                          then {[op]} else ∅
             | [] => ∅
             end
        else ∅ in
      here ∪ referenced_labels symbols rest
  end.

(** The test under which [dead_code_elimination] keeps an instruction. *)
Definition kept (referenced : gset string) (instruction : parsed) : bool :=
  let '(mnemonic, operands, label) := instruction in
  if String.eqb mnemonic "LABEL" then
    match label with
    | Some l => bool_decide (l ∈ referenced) || String.eqb l "START"
    | None => false
    end
  else true.

(** [AdvancedCompiler.dead_code_elimination] *)
Definition dead_code_elimination (symbols : gmap string Z)
    (instructions : list parsed) : list parsed :=
  List.filter (kept (referenced_labels symbols instructions)) instructions.

(** [AdvancedCompiler.register_allocation]: a placeholder. *)
Definition register_allocation (instructions : list parsed) : list parsed :=
  instructions.

(** [AdvancedCompiler.instruction_scheduling]: copies the list. *)
Definition instruction_scheduling (instructions : list parsed)
  : list parsed :=
  map (fun '(mnemonic, operands, label) => (mnemonic, operands, label))
    instructions.

(** The entries of [optimizations_enabled] that [optimize] reads. *)
Record flags : Type := {
  constant_folding_on : bool;
  dead_code_elimination_on : bool;
  register_allocation_on : bool;
  instruction_scheduling_on : bool
}.

(** The settings of a fresh [AdvancedCompiler()]. *)
Definition default_flags : flags :=
  {| constant_folding_on := true; dead_code_elimination_on := true;
     register_allocation_on := true; instruction_scheduling_on := true |}.

(** [AdvancedCompiler.optimize]: all enabled optimizations, in order. *)
Definition optimize (enabled : flags) (symbols : gmap string Z)
    (instructions : list parsed) : list parsed :=
  let optimized := instructions in
  let optimized :=
    if constant_folding_on enabled then constant_folding optimized
    else optimized in
  let optimized :=
    if dead_code_elimination_on enabled
    then dead_code_elimination symbols optimized else optimized in
  let optimized :=
    if register_allocation_on enabled then register_allocation optimized
    else optimized in
  let optimized :=
    if instruction_scheduling_on enabled
    then instruction_scheduling optimized else optimized in
  optimized.

(** [AdvancedCompiler.compile] on a compiler whose symbol table is
    [symbols]: the table after the call and the returned instructions. *)
Definition compile (enabled : flags) (symbols : gmap string Z)
    (source : string) : gmap string Z * list parsed :=
  let instructions := parse source in
  let symbols := collect_symbols instructions symbols 0 in
  let instructions := optimize enabled symbols instructions in
  let symbols := collect_symbols instructions ∅ 0 in
  (symbols, instructions).

End AdvancedCompiler.

(** An entry that takes an address: its mnemonic is not the label marker. *)
Definition takes_address (instruction : parsed) : bool :=
  negb (String.eqb instruction.1.1 "LABEL").

(** The shape of what [AdvancedCompiler.parse] returns: only label entries
    carry a label. *)
Definition label_on_marker (instruction : parsed) : Prop :=
  is_Some instruction.2 -> instruction.1.1 = "LABEL".

(** The labels that [dead_code_elimination] keeps. *)
Definition kept_label (referenced : gset string) (l : string) : bool :=
  bool_decide (l ∈ referenced) || String.eqb l "START".

(** ** The trace viewer ([tools/vcd_viewer.py]) *)

(** [format_binary_value]: binary value for display. *)
Definition format_binary_value (value : string) (width : Z) : string :=
  if String.eqb value "x" || String.eqb value "z"
  then PyStr.repeat_str value width
  else PyStr.slice_from (- width) (PyStr.rjust value width "0").

(** [p] holds at [w], [w + 1], ..., [w + fuel - 1]. *)
Fixpoint holds_from (p : Z -> bool) (w : Z) (fuel : nat) : bool :=
  match fuel with
  | O => true
  | S fuel' => p w && holds_from p (w + 1) fuel'
  end.

(** The hexadecimal text of [w] has four characters and is read back as [w]
    by [parse_immediate] behind the prefix [0x]. *)
Definition hex_word_ok (w : Z) : bool :=
  Nat.eqb (String.length (PyInt.format_04X w)) 4
  && match parse_immediate ("0x" +:+ PyInt.format_04X w) with
     | Ok v => v =? w
     | Raise _ => false
     end.

(** ** The spec's instruction-support matrix, for comparison with the code *)

(** The mnemonics that have an encoding rule, each with the number of
    operands its rule reads. *)
Definition implemented : list (string * nat) :=
  [("LOADI", 2%nat); ("ADD", 3%nat); ("SUB", 3%nat); ("STORE", 2%nat);
   ("LOAD", 2%nat); ("JUMP", 1%nat); ("JZ", 2%nat); ("JNZ", 2%nat);
   ("PUSH", 1%nat); ("POP", 1%nat); ("MUL", 3%nat); ("HALT", 0%nat);
   ("RETI", 0%nat)].

(** The mnemonics of the opcode table that have no encoding rule. *)
Definition not_implemented : list string :=
  ["AND"; "OR"; "XOR"; "SHL"; "SHR"; "MOV"; "CMP"; "NOT"; "DIV"; "IN"; "OUT"].

(** The mnemonics whose rule places an immediate or an address in the low
    six bits, each with the index of that operand and the subject of its
    range message. *)
Definition low6_rules : list (string * (nat * string)) :=
  [("LOADI", (1%nat, "Immediate value")); ("STORE", (1%nat, "Address"));
   ("LOAD", (1%nat, "Address")); ("JUMP", (0%nat, "Jump address"));
   ("JZ", (1%nat, "Jump address")); ("JNZ", (1%nat, "Jump address"))].

(** A line that the passes count as a statement: it parses, and its mnemonic
    slot is not the label marker. *)
Definition is_statement (line : string) : bool :=
  match assemble_line line with
  | Some (mnemonic, _, _) => negb (String.eqb mnemonic "LABEL")
  | None => false
  end.

(** Number of statements among [lines]. *)
Definition count_statements (lines : list string) : nat :=
  length (List.filter is_statement lines).

(** A line whose label the first pass binds: the label slot of its parse is
    the non-empty name [l]. *)
Definition binds (l : string) (line : string) : bool :=
  match assemble_line line with
  | Some (_, _, Some l') => PyStr.nonempty l' && String.eqb l l'
  | _ => false
  end.

(** A statement line encodes under the label table [labels]. *)
Definition encodes (labels : gmap string Z) (line : string) : bool :=
  match assemble_line line with
  | Some (mnemonic, operands, _) =>
      String.eqb mnemonic "LABEL"
      || is_ok (encode_instruction mnemonic (replace_labels labels operands))
  | None => true
  end.

(** The addresses [a, a+1, ..., a+n-1]. *)
Fixpoint addresses_from (a : Z) (n : nat) : list Z :=
  match n with
  | O => []
  | S n' => a :: addresses_from (a + 1) n'
  end.

(** The programs of the concrete runs. *)
Definition scenario : string :=
  unlines ["START:"; "LOADI R0, 5"; "LOADI R1, 10"; "ADD R2, R0, R1";
           "JUMP START"; "HALT"].

Definition scenario_inline_label : string :=
  unlines ["START: LOADI R0, 5"; "LOADI R1, 10"; "ADD R2, R0, R1";
           "JUMP START"; "HALT"].

Definition forward_pure_label : string :=
  unlines ["JUMP END"; "END:"; "HALT"].

Definition forward_inline_label : string :=
  unlines ["JUMP END"; "LOADI R0, 1"; "END: HALT"].

Definition duplicate_label : string :=
  unlines ["A: HALT"; "A: HALT"; "JUMP A"].

Definition register_named_label : string :=
  unlines ["R0: LOADI R0, 5"].

Definition numeric_label : string :=
  unlines ["HALT"; "5: HALT"; "JUMP 5"].

(** ** Characters and strings *)

Section Strings.

Import PyStr.

Lemma upper_char_idem (c : ascii) : upper_char (upper_char c) = upper_char c.
Proof. destruct c as [[|] [|] [|] [|] [|] [|] [|] [|]]; reflexivity. Qed.

Lemma upper_idem (s : string) : upper (upper s) = upper s.
Proof.
  induction s as [|c s IH]; simpl; [reflexivity|].
  now rewrite upper_char_idem, IH.
Qed.

Lemma decimal_not_space (c : ascii) : is_decimal c = true -> isspace c = false.
Proof. destruct c as [[|] [|] [|] [|] [|] [|] [|] [|]]; cbv; congruence. Qed.

Lemma decimal_upper (c : ascii) : is_decimal c = true -> upper_char c = c.
Proof. destruct c as [[|] [|] [|] [|] [|] [|] [|] [|]]; cbv; congruence. Qed.

Lemma rstrip_decimal (s : string) :
  all_chars is_decimal s = true -> rstrip s = s.
Proof.
  induction s as [|c s IH]; simpl; [reflexivity|].
  intros [Hc Hs]%andb_prop. rewrite (IH Hs).
  destruct s; [now rewrite (decimal_not_space c Hc)|reflexivity].
Qed.

Lemma lstrip_decimal (s : string) :
  all_chars is_decimal s = true -> lstrip s = s.
Proof.
  destruct s as [|c s]; simpl; [reflexivity|].
  intros [Hc _]%andb_prop. now rewrite (decimal_not_space c Hc).
Qed.

Lemma strip_decimal (s : string) : all_chars is_decimal s = true -> strip s = s.
Proof.
  intros H. unfold strip. rewrite (lstrip_decimal s H).
  now apply rstrip_decimal.
Qed.

Lemma upper_decimal (s : string) : all_chars is_decimal s = true -> upper s = s.
Proof.
  induction s as [|c s IH]; simpl; [reflexivity|].
  intros [Hc Hs]%andb_prop. now rewrite (decimal_upper c Hc), (IH Hs).
Qed.

Lemma uint_decimal (d : Decimal.uint) :
  all_chars is_decimal (NilEmpty.string_of_uint d) = true.
Proof. induction d; simpl; auto. Qed.

End Strings.

(** ** Opcode and register tables *)

Lemma REGISTERS_elem (s : string) (r : Z) :
  REGISTERS !! s = Some r ->
  (s, r) ∈ [("R0", 0); ("R1", 1); ("R2", 2); ("R3", 3);
            ("R4", 4); ("R5", 5); ("R6", 6); ("R7", 7)].
Proof. unfold REGISTERS. apply elem_of_list_to_map_2. Qed.

Lemma REGISTERS_range (s : string) (r : Z) :
  REGISTERS !! s = Some r -> 0 <= r <= 7.
Proof.
  intros H%REGISTERS_elem.
  repeat (apply elem_of_cons in H as [H|H]; [inversion H; lia|]).
  inversion H.
Qed.

Lemma REGISTERS_head (s : string) (r : Z) :
  REGISTERS !! s = Some r -> exists s', s = String "R" s'.
Proof.
  intros H%REGISTERS_elem.
  repeat (apply elem_of_cons in H as [H|H]; [inversion H; eauto|]).
  inversion H.
Qed.

Lemma parse_register_range (t : string) (r : Z) :
  parse_register t = Ok r -> 0 <= r <= 7.
Proof.
  unfold parse_register.
  destruct (REGISTERS !! _) eqn:E; [|discriminate].
  intros [= <-]. eapply REGISTERS_range, E.
Qed.

Lemma encode_upper (mnemonic : string) (operands : list string) :
  encode_instruction mnemonic operands
  = encode_instruction (PyStr.upper mnemonic) operands.
Proof. unfold encode_instruction. now rewrite upper_idem. Qed.

Lemma encode_known (mnemonic : string) (opcode : Z) (operands : list string) :
  OPCODES !! PyStr.upper mnemonic = Some opcode ->
  encode_instruction mnemonic operands
  = encode_rule (PyStr.upper mnemonic) opcode operands.
Proof. intros H. unfold encode_instruction. now rewrite H. Qed.

(** Splits a membership in a literal list into one goal per element. *)
Ltac each_elem H :=
  repeat (apply elem_of_cons in H as [H|H]; [inversion H; clear H; subst|]);
  try (apply elem_of_nil in H; contradiction).

(** Rewrites [encode_instruction m ops] to the rule of [m] when [Hm] gives the
    closed upper-case spelling of [m]. *)
Ltac to_rule Hm :=
  erewrite encode_known by (rewrite Hm; reflexivity); rewrite Hm.

(** Case analysis on every parse that the goal is stuck on. *)
Ltac step_parses :=
  repeat (cbn [bind getitem nth_error register_at immediate_at is_ok];
          match goal with
          | |- context [parse_register ?x] => destruct (parse_register x)
          | |- context [parse_immediate ?x] => destruct (parse_immediate x)
          | |- context [check_6bit ?a ?b] => destruct (check_6bit a b)
          end).

(** ** Instruction encoding *)

(** C1, as stated, at [POP R2]: the code's word is 0xE440, not
    [(0xE << 12) | (2 << 6)] = 0xE080. *)
Lemma C1_pop_counterexample :
  encode_instruction "POP" ["R2"] = Ok 0xE440
  /\ encode_instruction "POP" ["R2"]
     <> Ok (Z.lor (Z.shiftl 0xE 12) (Z.shiftl 2 6)).
Proof. split; [reflexivity|]. vm_compute. intros [=]. Qed.

(** [POP] on any token that names a register. *)
Lemma pop_register_token (t : string) (rd : Z) :
  parse_register t = Ok rd ->
  encode_instruction "POP" [t] = Ok (pack 0xE rd 1 0).
Proof.
  intros H. erewrite encode_known by reflexivity.
  cbn [PyStr.upper]. unfold encode_rule. cbn [String.eqb].
  cbn -[pack parse_register]. rewrite H. reflexivity.
Qed.

(** C1 (amended): for every register Rd in 0..7, encoding [POP Rd] yields
    the word [(0xE << 12) | (Rd << 9) | (1 << 6)]: opcode nibble 0xE, fieldA
    (bits 11:9) equal to Rd, fieldB (bits 8:6) fixed to 1, and low6 = 0. *)
Theorem C1_pop_encoding (rd : Z) :
  0 <= rd <= 7 ->
  exists w : Z,
    encode_instruction "POP" ["R" +:+ PyInt.str rd] = Ok w
    /\ w = Z.lor (Z.lor (Z.shiftl 0xE 12) (Z.shiftl rd 9)) (Z.shiftl 1 6)
    /\ Z.shiftr w 12 = 0xE
    /\ Z.land (Z.shiftr w 9) 7 = rd
    /\ Z.land (Z.shiftr w 6) 7 = 1
    /\ Z.land w 63 = 0.
Proof.
  intros Hr. exists (pack 0xE rd 1 0).
  assert (rd = 0 \/ rd = 1 \/ rd = 2 \/ rd = 3 \/ rd = 4 \/ rd = 5
          \/ rd = 6 \/ rd = 7) as Hc by lia.
  decompose [or] Hc; subst rd;
    (split; [apply pop_register_token; reflexivity
            |vm_compute; repeat split]).
Qed.

Lemma C1_pop_encoding_witness :
  exists w : Z,
    encode_instruction "POP" ["R" +:+ PyInt.str 5] = Ok w
    /\ w = Z.lor (Z.lor (Z.shiftl 0xE 12) (Z.shiftl 5 9)) (Z.shiftl 1 6)
    /\ Z.shiftr w 12 = 0xE
    /\ Z.land (Z.shiftr w 9) 7 = 5
    /\ Z.land (Z.shiftr w 6) 7 = 1
    /\ Z.land w 63 = 0.
Proof. apply (C1_pop_encoding 5). lia. Defined.


(** A value of at most 63 passes the check (negative values included). *)
Lemma low6_at_most_63 (m what : string) (i : nat) (operands : list string)
    (v : Z) :
  (PyStr.upper m, (i, what)) ∈ low6_rules ->
  (i = 1%nat -> is_ok (register_at operands 0) = true) ->
  immediate_at operands i = Ok v ->
  v <= 63 ->
  is_ok (encode_instruction m operands) = true.
Proof.
  intros Hin Hreg Himm Hv. unfold low6_rules in Hin.
  assert ((v >? 63) = false) as Hgt by lia.
  each_elem Hin; match goal with Hm : PyStr.upper m = _ |- _ =>
    to_rule Hm end;
  unfold encode_rule; cbn [String.eqb Ascii.eqb Bool.eqb];
  try (destruct (register_at operands 0); [|now specialize (Hreg eq_refl)]);
  rewrite Himm; cbn [bind]; unfold check_6bit; rewrite Hgt; reflexivity.
Qed.

(** C2, at the failing inputs: a negative value in the low-6 slot is not
    refused; every one of the six rules returns a negative word. *)
Theorem C2_negative_low6_accepted :
  encode_instruction "LOADI" ["R0"; "-1"] = Ok (-1)
  /\ encode_instruction "STORE" ["R0"; "[-1]"] = Ok (-1)
  /\ encode_instruction "LOAD" ["R0"; "[-1]"] = Ok (-1)
  /\ encode_instruction "JUMP" ["-1"] = Ok (-1)
  /\ encode_instruction "JZ" ["R0"; "-1"] = Ok (-1)
  /\ encode_instruction "JNZ" ["R0"; "-64"] = Ok (-64).
Proof. repeat split; reflexivity. Qed.

(** C7: a mnemonic absent from the opcode table fails with the
    unknown-instruction error naming it; a mnemonic of the table without an
    encoding rule fails with the not-implemented error; the two messages
    never coincide. *)
Theorem C7_unknown_vs_not_implemented (m : string) (operands : list string) :
  (OPCODES !! PyStr.upper m = None ->
   encode_instruction m operands
   = Raise (ValueError ("Unknown instruction: " +:+ PyStr.upper m)))
  /\ (PyStr.upper m ∈ not_implemented ->
      is_Some (OPCODES !! PyStr.upper m)
      /\ encode_instruction m operands
         = Raise (ValueError ("Instruction encoding not implemented: "
                              +:+ PyStr.upper m)))
  /\ (forall m1 m2 : string,
        "Unknown instruction: " +:+ m1
        <> "Instruction encoding not implemented: " +:+ m2).
Proof.
  split; [|split].
  - intros H. unfold encode_instruction. now rewrite H.
  - intros Hin. unfold not_implemented in Hin.
    each_elem Hin; match goal with Hm : PyStr.upper m = _ |- _ =>
      to_rule Hm; split; [eexists|]; reflexivity end.
  - intros m1 m2 H. discriminate H.
Qed.

Lemma C7_unknown_vs_not_implemented_witness :
  encode_instruction "foo" ["R0"]
  = Raise (ValueError "Unknown instruction: FOO")
  /\ encode_instruction "AND" ["R0"; "R1"; "R2"]
     = Raise (ValueError "Instruction encoding not implemented: AND").
Proof.
  split.
  - apply (proj1 (C7_unknown_vs_not_implemented "foo" ["R0"])). reflexivity.
  - apply (proj1 (proj2 (C7_unknown_vs_not_implemented "AND"
                           ["R0"; "R1"; "R2"]))).
    unfold not_implemented. cbn [PyStr.upper]. apply list_elem_of_here.
Defined.

(** C8, as stated, at [HALT R0] and [LOADI R0, 5, 7]: the surplus operand is
    ignored and the statement encodes. *)
Lemma C8_surplus_operand_counterexample :
  encode_instruction "HALT" ["R0"] = Ok 0xF000
  /\ encode_instruction "LOADI" ["R0"; "5"; "7"] = Ok 0x0005.
Proof. split; reflexivity. Qed.

(** C8 (amended): for every implemented mnemonic with a rule of [k]
    operands, a statement with fewer than [k] operands fails to encode, and
    a statement with [k] or more operands encodes exactly as its first [k]
    operands do, the surplus being ignored. *)
Theorem C8_operand_count (m : string) (k : nat) (operands : list string) :
  (PyStr.upper m, k) ∈ implemented ->
  ((length operands < k)%nat ->
   is_ok (encode_instruction m operands) = false)
  /\ ((k <= length operands)%nat ->
      encode_instruction m operands
      = encode_instruction m (take k operands)).
Proof.
  intros Hin. unfold implemented in Hin.
  each_elem Hin; match goal with Hm : PyStr.upper m = _ |- _ =>
    do 2 to_rule Hm end;
  unfold encode_rule; cbn [String.eqb Ascii.eqb Bool.eqb];
  (split; intros Hlen;
   [ destruct operands as [|o0 [|o1 [|o2 rest]]]; cbn [length] in Hlen;
     try lia; step_parses; reflexivity
   | destruct operands as [|o0 [|o1 [|o2 rest]]]; cbn [length] in Hlen;
     try lia; reflexivity ]).
Qed.

Lemma C8_operand_count_witness :
  is_ok (encode_instruction "loadi" ["R0"]) = false
  /\ encode_instruction "add" ["R1"; "R2"; "R3"; "R4"]
     = encode_instruction "add" ["R1"; "R2"; "R3"].
Proof.
  split.
  - refine (proj1 (C8_operand_count "loadi" 2 ["R0"] _) _).
    + unfold implemented. cbn [PyStr.upper]. apply list_elem_of_here.
    + cbn [length]. lia.
  - refine (proj2 (C8_operand_count "add" 3 ["R1"; "R2"; "R3"; "R4"] _) _).
    + unfold implemented. cbn [PyStr.upper].
      apply list_elem_of_further, list_elem_of_here.
    + cbn [length]. lia.
Defined.

(** ** The two passes *)

(** C3, at the scenario of the spec: the label [START] stands alone on its
    line, the first pass leaves the label table empty, and the run stops at
    [JUMP START] with an error instead of yielding the five words. *)
Theorem C3_scenario_label_unbound :
  assemble init_labels scenario
  = (∅, Raise (ValueError
       "Error at address 3: invalid literal for int() with base 10: 'START'")).
Proof. vm_compute. reflexivity. Qed.

(** The same scenario with the label on the line of its statement gives the
    table and the stream that the spec expects. *)
Lemma scenario_inline_label_run :
  assemble init_labels scenario_inline_label
  = ({["START" := 0]},
     Ok [(0, 0x0005); (1, 0x020A); (2, 0x1080); (3, 0xC000); (4, 0xF000)]).
Proof. vm_compute. reflexivity. Qed.

(** C6, at a forward reference to a label that stands alone on its line:
    the label is not bound and the reference is refused as a malformed
    number. *)
Theorem C6_forward_pure_label_unbound :
  assemble init_labels forward_pure_label
  = (∅, Raise (ValueError
       "Error at address 0: invalid literal for int() with base 10: 'END'")).
Proof. vm_compute. reflexivity. Qed.

(** A forward reference to a label that shares its line with a statement
    resolves to the address of that statement. *)
Lemma forward_inline_label_run :
  assemble init_labels forward_inline_label
  = ({["END" := 2]}, Ok [(0, 0xC002); (1, 0x0001); (2, 0xF000)]).
Proof. vm_compute. reflexivity. Qed.

(** C9, as stated, at a source that defines [A] twice: the run succeeds. *)
Lemma C9_duplicate_label_counterexample :
  assemble init_labels duplicate_label
  = ({["A" := 1]}, Ok [(0, 0xF000); (1, 0xF000); (2, 0xC001)]).
Proof. vm_compute. reflexivity. Qed.

(** C4, as stated, at a register token whose name is also a label: the token
    is replaced by the label's address and is then refused as a register. *)
Lemma C4_register_label_counterexample :
  assemble init_labels register_named_label
  = ({["R0" := 0]},
     Raise (ValueError "Error at address 0: Invalid register: 0")).
Proof. vm_compute. reflexivity. Qed.

(** A label that reads as a number is substituted before numeric parsing. *)
Lemma numeric_label_run :
  assemble init_labels numeric_label
  = ({["5" := 1]}, Ok [(0, 0xF000); (1, 0xF000); (2, 0xC001)]).
Proof. vm_compute. reflexivity. Qed.

Lemma is_statement_parsed (line mnemonic : string) (operands : list string)
    (label : option string) :
  assemble_line line = Some (mnemonic, operands, label) ->
  is_statement line = negb (String.eqb mnemonic "LABEL").
Proof. intros H. unfold is_statement. now rewrite H. Qed.

Lemma is_statement_blank (line : string) :
  assemble_line line = None -> is_statement line = false.
Proof. intros H. unfold is_statement. now rewrite H. Qed.

Lemma count_statements_cons (line : string) (lines : list string) :
  count_statements (line :: lines)
  = ((if is_statement line then 1 else 0) + count_statements lines)%nat.
Proof.
  unfold count_statements. cbn [List.filter].
  destruct (is_statement line); reflexivity.
Qed.

(** A line that parses to the label marker without a label is invisible to
    the first pass. *)
Lemma first_pass_skip (line : string) (operands : list string)
    (before after : list string) :
  assemble_line line = Some ("LABEL", operands, None) ->
  forall (labels : gmap string Z) (address : Z),
    first_pass (before ++ line :: after) labels address
    = first_pass (before ++ after) labels address.
Proof.
  intros Hline. induction before as [|l before IH]; intros labels address.
  - cbn [app first_pass]. rewrite Hline. reflexivity.
  - cbn [app first_pass].
    destruct (assemble_line l) as [[[m ops] lab]|]; apply IH.
Qed.

(** And to the second pass. *)
Lemma second_pass_skip (line : string) (operands : list string)
    (label : option string) (before after : list string)
    (labels : gmap string Z) :
  assemble_line line = Some ("LABEL", operands, label) ->
  forall (address : Z) (instructions : list (Z * Z)),
    second_pass labels (before ++ line :: after) address instructions
    = second_pass labels (before ++ after) address instructions.
Proof.
  intros Hline. induction before as [|l before IH]; intros address instructions.
  - cbn [app second_pass]. rewrite Hline. reflexivity.
  - cbn [app second_pass].
    destruct (assemble_line l) as [[[m ops] lab]|]; [|apply IH].
    destruct (String.eqb m "LABEL"); [apply IH|].
    destruct (encode_instruction m _); [apply IH|reflexivity].
Qed.

(** The first pass over a prefix only moves the address counter by the
    number of statements of the prefix. *)
Lemma first_pass_app (before rest : list string) :
  forall (labels : gmap string Z) (address : Z),
  exists labels' : gmap string Z,
    first_pass (before ++ rest) labels address
    = first_pass rest labels'
        (address + Z.of_nat (count_statements before)).
Proof.
  induction before as [|l before IH]; intros labels address.
  - exists labels. cbn [app]. f_equal. unfold count_statements. cbn. lia.
  - cbn [app first_pass]. rewrite count_statements_cons.
    destruct (assemble_line l) as [[[m ops] lab]|] eqn:El.
    + rewrite (is_statement_parsed _ _ _ _ El).
      match goal with |- context [first_pass _ ?L ?a] =>
        destruct (IH L a) as [labels' Heq] end.
      exists labels'. rewrite Heq. f_equal.
      destruct (String.eqb m "LABEL"); cbn [negb]; lia.
    + rewrite (is_statement_blank _ El).
      destruct (IH labels address) as [labels' Heq].
      exists labels'. rewrite Heq. f_equal; lia.
Qed.

(** Lines that do not bind [l] leave its entry alone. *)
Lemma first_pass_unbound (l : string) (lines : list string) :
  Forall (fun line => binds l line = false) lines ->
  forall (labels : gmap string Z) (address : Z),
    first_pass lines labels address !! l = labels !! l.
Proof.
  induction 1 as [|line lines Hline _ IH]; intros labels address.
  - reflexivity.
  - cbn [first_pass]. unfold binds in Hline.
    destruct (assemble_line line) as [[[m ops] [l'|]]|]; rewrite ?IH;
      try reflexivity.
    destruct (PyStr.nonempty l'); [|reflexivity].
    cbn [andb] in Hline. apply String.eqb_neq in Hline.
    apply lookup_insert_ne. congruence.
Qed.

(** The label of the last line that binds it is bound to the address counter
    at that line. *)
Lemma first_pass_last_binding (l : string) (before after : list string)
    (line : string) (labels : gmap string Z) (address : Z) :
  binds l line = true ->
  Forall (fun x => binds l x = false) after ->
  first_pass (before ++ line :: after) labels address !! l
  = Some (address + Z.of_nat (count_statements before)).
Proof.
  intros Hb Hafter.
  destruct (first_pass_app before (line :: after) labels address)
    as [labels' ->].
  cbn [first_pass]. unfold binds in Hb.
  destruct (assemble_line line) as [[[m ops] [l'|]]|]; try discriminate.
  destruct (PyStr.nonempty l'); [|discriminate].
  cbn [andb] in Hb. apply String.eqb_eq in Hb. subst l'.
  rewrite (first_pass_unbound l after Hafter). apply lookup_insert_eq.
Qed.

(** The second pass fails only where a statement fails to encode. *)
Lemma second_pass_ok (labels : gmap string Z) (lines : list string) :
  Forall (fun line => encodes labels line = true) lines ->
  forall (address : Z) (instructions : list (Z * Z)),
    is_ok (second_pass labels lines address instructions) = true.
Proof.
  induction 1 as [|line lines Hline _ IH]; intros address instructions.
  - reflexivity.
  - cbn [second_pass]. unfold encodes in Hline.
    destruct (assemble_line line) as [[[m ops] lab]|]; [|apply IH].
    destruct (String.eqb m "LABEL"); [apply IH|].
    cbn [orb] in Hline.
    destruct (encode_instruction m _); [apply IH|discriminate].
Qed.

Lemma addresses_from_length (n : nat) :
  forall a : Z, length (addresses_from a n) = n.
Proof.
  induction n as [|n IH]; intros a; cbn; [reflexivity|]. now rewrite IH.
Qed.

Lemma addresses_from_lookup (n : nat) :
  forall (a : Z) (i : nat),
    (i < n)%nat -> addresses_from a n !! i = Some (a + Z.of_nat i).
Proof.
  induction n as [|n IH]; intros a i Hi; [lia|].
  destruct i as [|i]; cbn.
  - f_equal. lia.
  - rewrite IH by lia. f_equal. lia.
Qed.

(** On success the second pass appends one instruction per statement, at
    consecutive addresses. *)
Lemma second_pass_addresses (labels : gmap string Z) (lines : list string) :
  forall (address : Z) (instructions result : list (Z * Z)),
    second_pass labels lines address instructions = Ok result ->
    exists new : list (Z * Z),
      result = instructions ++ new
      /\ map fst new = addresses_from address (count_statements lines).
Proof.
  induction lines as [|line lines IH]; intros address instructions result H.
  - cbn in H. injection H as <-. exists []. split; [|reflexivity].
    now rewrite app_nil_r.
  - cbn [second_pass] in H. rewrite count_statements_cons.
    destruct (assemble_line line) as [[[m ops] lab]|] eqn:El.
    + rewrite (is_statement_parsed _ _ _ _ El).
      destruct (String.eqb m "LABEL"); cbn [negb].
      * apply IH, H.
      * destruct (encode_instruction m _) as [w|e]; [|discriminate].
        apply IH in H as (new & -> & Hnew).
        exists ((address, w) :: new). split.
        -- now rewrite <- app_assoc.
        -- cbn. now rewrite Hnew.
    + rewrite (is_statement_blank _ El). apply IH, H.
Qed.

(** C5: when assembly succeeds on a source with N statements (parsed lines
    other than label entries), it yields exactly N instructions, the i-th at
    address i, hence at strictly increasing addresses 0..N-1; label entries
    are not counted and take no address. *)
Theorem C5_address_contiguity (labels : gmap string Z) (source : string)
    (instructions : list (Z * Z)) :
  snd (assemble labels source) = Ok instructions ->
  length instructions = count_statements (source_lines source)
  /\ (forall i : nat,
        (i < count_statements (source_lines source))%nat ->
        fst <$> instructions !! i = Some (Z.of_nat i))
  /\ (forall (i j : nat) (x y : Z * Z),
        (i < j)%nat -> instructions !! i = Some x ->
        instructions !! j = Some y -> fst x < fst y).
Proof.
  unfold assemble. cbn [snd]. intros H.
  apply second_pass_addresses in H as (new & -> & Hnew). cbn [app].
  assert (length new = count_statements (source_lines source)) as Hlen.
  { rewrite <- (length_map fst new), Hnew. apply addresses_from_length. }
  assert (forall i : nat,
            (i < count_statements (source_lines source))%nat ->
            fst <$> new !! i = Some (Z.of_nat i)) as Hat.
  { intros i Hi. rewrite <- list_lookup_fmap.
    change (fst <$> new) with (map fst new).
    rewrite Hnew, addresses_from_lookup by exact Hi. f_equal. }
  split; [exact Hlen|]. split; [exact Hat|].
  intros i j x y Hij Hx Hy.
  assert (j < length new)%nat as Hj by (eapply lookup_lt_Some, Hy).
  pose proof (Hat i ltac:(lia)) as Hi'. pose proof (Hat j ltac:(lia)) as Hj'.
  rewrite Hx in Hi'. rewrite Hy in Hj'. cbn in Hi', Hj'.
  injection Hi' as ->. injection Hj' as ->. lia.
Qed.

Lemma C5_address_contiguity_witness :
  length [(0, 0x0005); (1, 0x020A); (2, 0x1080); (3, 0xC000); (4, 0xF000)]
  = count_statements (source_lines scenario_inline_label)
  /\ (forall i : nat,
        (i < count_statements (source_lines scenario_inline_label))%nat ->
        fst <$> [(0, 0x0005); (1, 0x020A); (2, 0x1080); (3, 0xC000);
                 (4, 0xF000)] !! i = Some (Z.of_nat i))
  /\ (forall (i j : nat) (x y : Z * Z),
        (i < j)%nat ->
        [(0, 0x0005); (1, 0x020A); (2, 0x1080); (3, 0xC000); (4, 0xF000)]
          !! i = Some x ->
        [(0, 0x0005); (1, 0x020A); (2, 0x1080); (3, 0xC000); (4, 0xF000)]
          !! j = Some y ->
        fst x < fst y).
Proof.
  apply (C5_address_contiguity init_labels scenario_inline_label).
  vm_compute. reflexivity.
Defined.

(** C9 (amended): a source that defines a label more than once is not
    refused on that account.  Whatever the lines before it define, the last
    line that binds a label binds it to the address counter at that line,
    and the run succeeds as soon as every statement encodes under the final
    table. *)
Theorem C9_last_definition_wins (labels : gmap string Z) (source : string)
    (before after : list string) (line l : string) :
  source_lines source = before ++ line :: after ->
  binds l line = true ->
  Forall (fun x => binds l x = false) after ->
  fst (assemble labels source) !! l
  = Some (Z.of_nat (count_statements before))
  /\ (Forall (fun x => encodes (fst (assemble labels source)) x = true)
        (source_lines source) ->
      is_ok (snd (assemble labels source)) = true).
Proof.
  intros Hsrc Hb Hafter. unfold assemble. cbn [fst snd]. split.
  - rewrite Hsrc.
    rewrite (first_pass_last_binding l before after line labels 0 Hb Hafter).
    f_equal.
  - intros Hall. now apply second_pass_ok.
Qed.

Lemma C9_last_definition_wins_witness :
  fst (assemble init_labels duplicate_label) !! "A"
  = Some (Z.of_nat (count_statements ["A: HALT"]))
  /\ (Forall (fun x => encodes (fst (assemble init_labels duplicate_label)) x
                       = true)
        (source_lines duplicate_label) ->
      is_ok (snd (assemble init_labels duplicate_label)) = true).
Proof.
  apply (C9_last_definition_wins init_labels duplicate_label
           ["A: HALT"] ["JUMP A"] "A: HALT" "A").
  - reflexivity.
  - reflexivity.
  - repeat constructor.
Defined.

(** A line without a colon whose first token reads [LABEL] parses to the
    label marker with no label. *)
Lemma label_mnemonic_parse (line : string) :
  PyStr.contains ":" (PyStr.strip (hd EmptyString (PyStr.split ";" line)))
  = false ->
  PyStr.upper
    (hd EmptyString
       (PyStr.re_split
          (PyStr.strip (hd EmptyString (PyStr.split ";" line)))))
  = "LABEL" ->
  exists operands : list string,
    assemble_line line = Some ("LABEL", operands, None).
Proof.
  intros Hcolon Hfirst. unfold assemble_line.
  destruct (PyStr.strip (hd EmptyString (PyStr.split ";" line)))
    as [|c s] eqn:Es.
  - discriminate Hfirst.
  - cbn [PyStr.nonempty negb]. rewrite Hcolon.
    unfold parse_statement. rewrite Hfirst. eexists. reflexivity.
Qed.

(** C10: a line that, once its comment is stripped, has no colon and whose
    first token reads [LABEL] in upper case is skipped by both passes: it is
    no statement, and assembling a source with the line gives the same label
    table and the same outcome as the source without it, although [LABEL] is
    not in the opcode table. *)
Theorem C10_label_mnemonic_skipped (labels : gmap string Z)
    (source source' : string) (before after : list string) (line : string) :
  PyStr.contains ":" (PyStr.strip (hd EmptyString (PyStr.split ";" line)))
  = false ->
  PyStr.upper
    (hd EmptyString
       (PyStr.re_split
          (PyStr.strip (hd EmptyString (PyStr.split ";" line)))))
  = "LABEL" ->
  source_lines source = before ++ line :: after ->
  source_lines source' = before ++ after ->
  OPCODES !! "LABEL" = None
  /\ is_statement line = false
  /\ assemble labels source = assemble labels source'.
Proof.
  intros Hcolon Hfirst Hsrc Hsrc'.
  destruct (label_mnemonic_parse line Hcolon Hfirst) as [ops Hline].
  split; [reflexivity|]. split.
  - now rewrite (is_statement_parsed _ _ _ _ Hline).
  - unfold assemble. rewrite Hsrc, Hsrc'.
    rewrite (first_pass_skip line ops before after Hline).
    now rewrite (second_pass_skip line ops None before after _ Hline).
Qed.

Lemma C10_label_mnemonic_skipped_witness :
  OPCODES !! "LABEL" = None
  /\ is_statement "  label r0, 5 ; no colon here" = false
  /\ assemble init_labels
       (unlines ["LOADI R0, 1"; "  label r0, 5 ; no colon here"; "HALT"])
     = assemble init_labels (unlines ["LOADI R0, 1"; "HALT"]).
Proof.
  apply (C10_label_mnemonic_skipped init_labels
           (unlines ["LOADI R0, 1"; "  label r0, 5 ; no colon here"; "HALT"])
           (unlines ["LOADI R0, 1"; "HALT"])
           ["LOADI R0, 1"] ["HALT"] "  label r0, 5 ; no colon here");
    reflexivity.
Defined.

(** ** Decimal text of an address and its parsing *)

Section RoundTrip.

Import PyStr PyInt.

Lemma str_pos (p : positive) :
  str (Z.pos p) = NilEmpty.string_of_uint (Pos.to_uint p).
Proof.
  unfold str, Z.to_int, NilZero.string_of_int, NilZero.string_of_uint.
  pose proof (Unsigned.to_uint_nonnil p) as Hp.
  destruct (Pos.to_uint p); [contradiction|reflexivity..].
Qed.

Lemma str_decimal (a : Z) : 0 <= a -> all_chars is_decimal (str a) = true.
Proof.
  destruct a as [|p|p]; intros Ha; [reflexivity| |lia].
  rewrite str_pos. apply uint_decimal.
Qed.

Lemma scan_step (c : ascii) (d base : Z) (s : string) (st : scan_state)
    (acc : Z) :
  Ascii.eqb c "_" = false ->
  digit_value c = Some d ->
  (d <? base) = true ->
  scan_digits base (String c s) st acc
  = scan_digits base s AfterDigit (acc * base + d).
Proof. intros H1 H2 H3. cbn [scan_digits]. now rewrite H1, H2, H3. Qed.

Lemma scan_uint_pos (d : Decimal.uint) :
  forall p : positive,
    scan_digits 10 (NilEmpty.string_of_uint d) AfterDigit (Z.pos p)
    = Some (Z.pos (Pos.of_uint_acc d p), EmptyString).
Proof.
  induction d as [|d IH|d IH|d IH|d IH|d IH|d IH|d IH|d IH|d IH|d IH];
    intros p; [reflexivity|..];
    cbn [NilEmpty.string_of_uint Pos.of_uint_acc];
    erewrite scan_step by reflexivity;
    rewrite <- IH; f_equal;
    match goal with
    | |- context [Z.of_N (N_of_ascii ?c) - 48] =>
        let v := eval vm_compute in (Z.of_N (N_of_ascii c) - 48) in
        change (Z.of_N (N_of_ascii c) - 48) with v
    end; lia.
Qed.

Lemma scan_uint_zero (d : Decimal.uint) :
  scan_digits 10 (NilEmpty.string_of_uint d) AfterDigit 0
  = Some (Z.of_N (Pos.of_uint d), EmptyString).
Proof.
  induction d as [|d IH|d IH|d IH|d IH|d IH|d IH|d IH|d IH|d IH|d IH];
    [reflexivity|..];
    cbn [NilEmpty.string_of_uint Pos.of_uint];
    erewrite scan_step by reflexivity;
    [exact IH | apply scan_uint_pos ..].
Qed.

Lemma scan_uint_start (d : Decimal.uint) :
  d <> Decimal.Nil ->
  scan_digits 10 (NilEmpty.string_of_uint d) NoDigit 0
  = Some (Z.of_N (Pos.of_uint d), EmptyString).
Proof.
  intros Hd. rewrite <- scan_uint_zero.
  destruct d; [contradiction|..];
    cbn [NilEmpty.string_of_uint];
    now rewrite !(scan_step _ _ 10 _ NoDigit), !(scan_step _ _ 10 _ AfterDigit)
      by reflexivity.
Qed.

Lemma take_sign_decimal (s : string) :
  all_chars is_decimal s = true -> take_sign s = (false, s).
Proof.
  destruct s as [|c r]; [reflexivity|].
  cbn [all_chars]. intros [Hc _]%andb_prop.
  destruct c as [[|] [|] [|] [|] [|] [|] [|] [|]];
    cbv in Hc; try discriminate Hc; reflexivity.
Qed.

Lemma take_prefix_base10 (s : string) : take_prefix 10 s = s.
Proof.
  destruct s as [|c [|c' r]]; try reflexivity;
    destruct c as [[|] [|] [|] [|] [|] [|] [|] [|]]; reflexivity.
Qed.

(** [int(str(a))] gives [a] back. *)
Lemma parse_str (a : Z) : 0 <= a -> parse (str a) 10 = Some a.
Proof.
  destruct a as [|p|p]; intros Ha; [reflexivity| |lia].
  pose proof (str_decimal (Z.pos p) Ha) as Hdec.
  unfold parse. rewrite (lstrip_decimal _ Hdec), (take_sign_decimal _ Hdec).
  rewrite take_prefix_base10, str_pos.
  rewrite (scan_uint_start _ (Unsigned.to_uint_nonnil p)).
  cbn [lstrip]. now rewrite Unsigned.of_to.
Qed.

Lemma startswith_decimal (a b : ascii) (s : string) :
  is_decimal b = false ->
  all_chars is_decimal s = true ->
  startswith (String a (String b EmptyString)) s = false.
Proof.
  intros Hb Hs. unfold startswith.
  destruct s as [|c1 [|c2 r]]; cbn [String.prefix]; [reflexivity| |].
  - destruct (ascii_dec a c1); reflexivity.
  - destruct (ascii_dec a c1); [|reflexivity].
    destruct (ascii_dec b c2) as [<-|]; [|reflexivity].
    cbn [all_chars] in Hs. rewrite Hb in Hs.
    now rewrite andb_false_r in Hs.
Qed.

Lemma startswith_bracket_decimal (s : string) :
  all_chars is_decimal s = true -> startswith "[" s = false.
Proof.
  intros Hs. unfold startswith.
  destruct s as [|c r]; cbn [String.prefix]; [reflexivity|].
  destruct (ascii_dec "[" c) as [<-|]; [|reflexivity].
  discriminate Hs.
Qed.

(** The decimal text of an address reads back as that address. *)
Lemma parse_immediate_str (a : Z) : 0 <= a -> parse_immediate (str a) = Ok a.
Proof.
  intros Ha. pose proof (str_decimal a Ha) as Hdec.
  unfold parse_immediate. rewrite (strip_decimal _ Hdec).
  rewrite (startswith_bracket_decimal _ Hdec). cbn [andb].
  rewrite !startswith_decimal by (exact Hdec || reflexivity).
  cbn [orb]. unfold int. now rewrite (parse_str a Ha).
Qed.

(** The decimal text of an address is not a register name. *)
Lemma parse_register_str (a : Z) :
  0 <= a ->
  parse_register (str a)
  = Raise (ValueError ("Invalid register: " +:+ str a)).
Proof.
  intros Ha. pose proof (str_decimal a Ha) as Hdec.
  unfold parse_register.
  rewrite (strip_decimal _ Hdec), (upper_decimal _ Hdec).
  destruct (REGISTERS !! str a) as [r|] eqn:Er; [|reflexivity].
  apply REGISTERS_head in Er as [s' Es]. rewrite Es in Hdec.
  discriminate Hdec.
Qed.

End RoundTrip.

(** ** Operand resolution *)

Lemma getitem_replaced (labels : gmap string Z) (operands : list string)
    (i : nat) (op : string) :
  nth_error operands i = Some op ->
  getitem (replace_labels labels operands) i
  = Ok (match labels !! op with
        | Some a => PyInt.str a
        | None => op
        end).
Proof.
  intros H. unfold getitem, replace_labels.
  now rewrite nth_error_map, H.
Qed.

(** C4 (amended): every operand token is looked up in the symbol table
    first, by its exact spelling.  A token that is a key of the table is
    replaced by the decimal text of its bound address, also when it spells a
    register name or a number: in an immediate or address position it then
    resolves to the bound address, in a register position it is refused as
    an invalid register.  A token that is not a key is read by its position:
    as a register name R0..R7, case-insensitively, giving an index 0..7, or
    as an integer literal. *)
Theorem C4_label_lookup_first (labels : gmap string Z)
    (operands : list string) (i : nat) (op : string) :
  nth_error operands i = Some op ->
  (forall a : Z,
     labels !! op = Some a -> 0 <= a ->
     immediate_at (replace_labels labels operands) i = Ok a
     /\ register_at (replace_labels labels operands) i
        = Raise (ValueError ("Invalid register: " +:+ PyInt.str a)))
  /\ (labels !! op = None ->
      immediate_at (replace_labels labels operands) i = parse_immediate op
      /\ register_at (replace_labels labels operands) i = parse_register op)
  /\ (forall r : Z,
        REGISTERS !! PyStr.upper (PyStr.strip op) = Some r ->
        parse_register op = Ok r /\ 0 <= r <= 7).
Proof.
  intros Hop. unfold immediate_at, register_at.
  rewrite (getitem_replaced labels operands i op Hop). cbn [bind].
  split; [|split].
  - intros a -> Ha. split.
    + now apply parse_immediate_str.
    + now apply parse_register_str.
  - intros ->. split; reflexivity.
  - intros r Hr. split.
    + unfold parse_register. now rewrite Hr.
    + eapply REGISTERS_range, Hr.
Qed.

Lemma C4_label_lookup_first_witness :
  immediate_at (replace_labels {["5" := 1]} ["R1"; "5"]) 1 = Ok 1
  /\ register_at (replace_labels {["R1" := 7]} ["R1"; "5"]) 0
     = Raise (ValueError "Invalid register: 7")
  /\ parse_register "r1" = Ok 1.
Proof.
  split; [|split].
  - refine (proj1 (proj1 (C4_label_lookup_first {["5" := 1]} ["R1"; "5"]
                            1 "5" _) 1 _ _)); [reflexivity..|lia].
  - refine (proj2 (proj1 (C4_label_lookup_first {["R1" := 7]} ["R1"; "5"]
                            0 "R1" _) 7 _ _)); [reflexivity..|lia].
  - refine (proj1 (proj2 (proj2 (C4_label_lookup_first {["5" := 1]}
                                   ["r1"; "5"] 0 "r1" _)) 1 _));
      reflexivity.
Defined.

(** ** Bit layout of the packed word *)

Lemma lor_low_bits (a b k : Z) :
  0 <= k -> 0 <= b < 2 ^ k -> Z.lor (a * 2 ^ k) b = a * 2 ^ k + b.
Proof.
  intros Hk Hb.
  assert (Z.land (a * 2 ^ k) b = 0) as Hland.
  { apply Z.bits_inj'. intros n Hn.
    rewrite Z.land_spec, Z.bits_0.
    destruct (Z.ltb_spec n k) as [Hlt|Hge].
    - now rewrite Z.mul_pow2_bits_low.
    - rewrite andb_false_iff. right.
      destruct (Z.eq_dec b 0) as [->|Hb0]; [apply Z.bits_0|].
      apply Z.bits_above_log2; [lia|].
      apply Z.log2_lt_pow2; [lia|].
      eapply Z.lt_le_trans; [apply Hb|].
      apply Z.pow_le_mono_r; lia. }
  rewrite <- Z.lxor_lor by exact Hland.
  now rewrite <- Z.add_nocarry_lxor by exact Hland.
Qed.

Lemma pack_sum (opcode reg1 reg2 imm : Z) :
  0 <= reg1 <= 7 -> 0 <= reg2 <= 7 -> 0 <= imm <= 63 ->
  pack opcode reg1 reg2 imm = opcode * 4096 + reg1 * 512 + reg2 * 64 + imm.
Proof.
  intros H1 H2 H3. unfold pack.
  rewrite !Z.shiftl_mul_pow2 by lia.
  rewrite (lor_low_bits opcode (reg1 * 2 ^ 9) 12) by lia.
  replace (opcode * 2 ^ 12 + reg1 * 2 ^ 9)
    with ((opcode * 8 + reg1) * 2 ^ 9) by lia.
  rewrite (lor_low_bits (opcode * 8 + reg1) (reg2 * 2 ^ 6) 9) by lia.
  replace ((opcode * 8 + reg1) * 2 ^ 9 + reg2 * 2 ^ 6)
    with (((opcode * 8 + reg1) * 8 + reg2) * 2 ^ 6) by lia.
  rewrite (lor_low_bits _ imm 6) by lia.
  lia.
Qed.

Lemma fields_of_sum (opcode reg1 reg2 imm : Z) :
  0 <= reg1 <= 7 -> 0 <= reg2 <= 7 -> 0 <= imm <= 63 ->
  let w := opcode * 4096 + reg1 * 512 + reg2 * 64 + imm in
  Z.shiftr w 12 = opcode
  /\ Z.land (Z.shiftr w 9) 7 = reg1
  /\ Z.land (Z.shiftr w 6) 7 = reg2
  /\ Z.land w 63 = imm.
Proof.
  intros H1 H2 H3 w. subst w.
  rewrite !Z.shiftr_div_pow2 by lia.
  change 7 with (Z.ones 3). change 63 with (Z.ones 6).
  rewrite !Z.land_ones by lia.
  change (2 ^ 12) with 4096. change (2 ^ 9) with 512.
  change (2 ^ 6) with 64. change (2 ^ 3) with 8.
  repeat split; Z.div_mod_to_equations; lia.
Qed.

Lemma OPCODES_elem (m : string) (opcode : Z) :
  OPCODES !! m = Some opcode ->
  (m, opcode) ∈
    [("LOADI", 0x0); ("ADD", 0x1); ("SUB", 0x2); ("AND", 0x3); ("OR", 0x4);
     ("XOR", 0x5); ("STORE", 0x6); ("LOAD", 0x7); ("SHL", 0x8); ("SHR", 0x9);
     ("MOV", 0xA); ("CMP", 0xB); ("JUMP", 0xC); ("JZ", 0xD); ("JNZ", 0xE);
     ("NOT", 0xF); ("HALT", 0xF); ("PUSH", 0xE); ("POP", 0xE); ("MUL", 0xD);
     ("DIV", 0xD); ("IN", 0xE); ("OUT", 0xE); ("RETI", 0xF)].
Proof. unfold OPCODES. apply elem_of_list_to_map_2. Qed.

Lemma register_at_range (operands : list string) (i : nat) (r : Z) :
  register_at operands i = Ok r -> 0 <= r <= 7.
Proof.
  unfold register_at. destruct (getitem operands i); [|discriminate].
  apply parse_register_range.
Qed.

Lemma check_6bit_ok (what : string) (v : Z) :
  check_6bit what v = Ok tt -> v <= 63.
Proof. unfold check_6bit. destruct (v >? 63) eqn:E; [discriminate|lia]. Qed.

(** Every encoded word is a packing of the mnemonic's opcode, two register
    fields and a value of at most 63. *)
Lemma encode_is_pack (m : string) (operands : list string) (w : Z) :
  encode_instruction m operands = Ok w ->
  exists opcode reg1 reg2 imm : Z,
    OPCODES !! PyStr.upper m = Some opcode
    /\ 0 <= opcode <= 15
    /\ w = pack opcode reg1 reg2 imm
    /\ 0 <= reg1 <= 7 /\ 0 <= reg2 <= 7 /\ imm <= 63.
Proof.
  unfold encode_instruction.
  destruct (OPCODES !! PyStr.upper m) as [opcode|] eqn:Eop; [|discriminate].
  intros H. exists opcode.
  apply OPCODES_elem in Eop.
  each_elem Eop;
    match goal with Hm : PyStr.upper m = _ |- _ => rewrite Hm in H end;
    unfold encode_rule in H; cbn [String.eqb Ascii.eqb Bool.eqb] in H;
    try discriminate H;
    repeat match type of H with
    | bind (register_at ?o ?i) _ = _ =>
        let r := fresh "r" in let Hr := fresh "Hr" in
        destruct (register_at o i) as [r|] eqn:Hr; [|discriminate H];
        apply register_at_range in Hr; cbn [bind] in H
    | bind (immediate_at ?o ?i) _ = _ =>
        let v := fresh "v" in
        destruct (immediate_at o i) as [v|]; [|discriminate H];
        cbn [bind] in H
    | bind (check_6bit ?a ?b) _ = _ =>
        let Hc := fresh "Hc" in
        destruct (check_6bit a b) as [[]|] eqn:Hc; [|discriminate H];
        apply check_6bit_ok in Hc; cbn [bind] in H
    end;
    injection H as <-.
  all: first
    [ solve [do 3 eexists; split; [reflexivity|]; split; [lia|];
             split; [reflexivity|]; lia]
    | solve [exists 0, 0, 0; repeat split; lia]
    | solve [exists 0, 0, 1; repeat split; lia] ].
Qed.

(** X1: the fields of a packed word can be read back: with a 4-bit opcode,
    3-bit registers and a 6-bit value, [pack] gives a 16-bit word whose
    bits 15:12, 11:9, 8:6 and 5:0 are the four fields. *)
Theorem pack_fields_round_trip (opcode reg1 reg2 imm : Z) :
  0 <= opcode <= 15 -> 0 <= reg1 <= 7 -> 0 <= reg2 <= 7 -> 0 <= imm <= 63 ->
  0 <= pack opcode reg1 reg2 imm < 65536
  /\ Z.shiftr (pack opcode reg1 reg2 imm) 12 = opcode
  /\ Z.land (Z.shiftr (pack opcode reg1 reg2 imm) 9) 7 = reg1
  /\ Z.land (Z.shiftr (pack opcode reg1 reg2 imm) 6) 7 = reg2
  /\ Z.land (pack opcode reg1 reg2 imm) 63 = imm.
Proof.
  intros H0 H1 H2 H3. rewrite (pack_sum opcode reg1 reg2 imm H1 H2 H3).
  split; [lia|]. exact (fields_of_sum opcode reg1 reg2 imm H1 H2 H3).
Qed.

Lemma pack_fields_round_trip_witness :
  0 <= pack 0xD 3 5 42 < 65536
  /\ Z.shiftr (pack 0xD 3 5 42) 12 = 0xD
  /\ Z.land (Z.shiftr (pack 0xD 3 5 42) 9) 7 = 3
  /\ Z.land (Z.shiftr (pack 0xD 3 5 42) 6) 7 = 5
  /\ Z.land (pack 0xD 3 5 42) 63 = 42.
Proof. apply (pack_fields_round_trip 0xD 3 5 42); lia. Defined.

Lemma pack_negative (opcode reg1 reg2 imm : Z) :
  0 <= opcode -> 0 <= reg1 -> 0 <= reg2 ->
  0 <= pack opcode reg1 reg2 imm -> 0 <= imm.
Proof.
  intros H0 H1 H2. unfold pack. rewrite !Z.lor_nonneg. tauto.
Qed.

(** X2: whenever [encode_instruction] returns a non-negative word, the word
    fits in 16 bits and its top four bits are the opcode that the opcode
    table gives for the mnemonic. *)
Theorem encode_word_opcode (m : string) (operands : list string) (w : Z) :
  encode_instruction m operands = Ok w ->
  0 <= w ->
  w < 65536 /\ OPCODES !! PyStr.upper m = Some (Z.shiftr w 12).
Proof.
  intros H Hw.
  destruct (encode_is_pack m operands w H)
    as (opcode & r1 & r2 & imm & Hop & Hrange & -> & Hr1 & Hr2 & Himm).
  assert (0 <= imm) as Hlow by (eapply pack_negative, Hw; lia).
  assert (0 <= imm <= 63) as Hi by lia.
  pose proof (fields_of_sum opcode r1 r2 imm Hr1 Hr2 Hi) as Hf.
  cbv zeta in Hf. destruct Hf as (Hf & _).
  rewrite (pack_sum opcode r1 r2 imm Hr1 Hr2 Hi).
  split; [lia|]. now rewrite Hf.
Qed.

Lemma encode_word_opcode_witness :
  0xC005 < 65536 /\ OPCODES !! PyStr.upper "jump" = Some (Z.shiftr 0xC005 12).
Proof.
  apply (encode_word_opcode "jump" ["5"] 0xC005); [reflexivity|lia].
Defined.

(** X3: the six rules with a value in the low six bits put the register (if
    any) in bits 11:9, nothing in bits 8:6 and the value in bits 5:0 under
    the mnemonic's opcode, for every value from 0 to 63. *)
Theorem low6_encoding (m what : string) (i : nat) (operands : list string)
    (opcode r v : Z) :
  (PyStr.upper m, (i, what)) ∈ low6_rules ->
  OPCODES !! PyStr.upper m = Some opcode ->
  (i = 1%nat -> register_at operands 0 = Ok r) ->
  (i = 0%nat -> r = 0) ->
  immediate_at operands i = Ok v ->
  0 <= v <= 63 ->
  encode_instruction m operands = Ok (opcode * 4096 + r * 512 + v).
Proof.
  intros Hin Hop Hreg Hnoreg Himm Hv. unfold low6_rules in Hin.
  assert ((v >? 63) = false) as Hgt by lia.
  assert (0 <= r <= 7) as Hr.
  { each_elem Hin; try (eapply register_at_range, Hreg; reflexivity).
    rewrite Hnoreg by reflexivity. lia. }
  rewrite (encode_known m opcode operands Hop).
  each_elem Hin;
    match goal with Hm : PyStr.upper m = _ |- _ =>
      rewrite Hm in Hop |- *; vm_compute in Hop; injection Hop as <- end;
    unfold encode_rule; cbn [String.eqb Ascii.eqb Bool.eqb];
    rewrite ?Hreg by reflexivity; rewrite ?Hnoreg in * by reflexivity;
    rewrite Himm; cbn [bind]; unfold check_6bit; rewrite Hgt; cbn [bind];
    rewrite pack_sum by lia; f_equal; lia.
Qed.

Lemma low6_encoding_witness :
  encode_instruction "jz" ["R3"; "0x2A"] = Ok (0xD * 4096 + 3 * 512 + 42).
Proof.
  apply (low6_encoding "jz" "Jump address" 1 ["R3"; "0x2A"] 0xD 3 42).
  - unfold low6_rules. cbn [PyStr.upper].
    do 4 apply list_elem_of_further. apply list_elem_of_here.
  - reflexivity.
  - intros _. reflexivity.
  - intros H. discriminate H.
  - reflexivity.
  - lia.
Defined.

(** X4: [ADD], [SUB] and [MUL] put the second operand in bits 11:9 and the
    first in bits 8:6; the third operand has to be a register, and its
    error is raised otherwise, but its number is not part of the word. *)
Theorem three_register_rule (m : string) (opcode : Z) (t1 t2 t3 : string)
    (rd rs1 : Z) :
  PyStr.upper m ∈ ["ADD"; "SUB"; "MUL"] ->
  OPCODES !! PyStr.upper m = Some opcode ->
  parse_register t1 = Ok rd ->
  parse_register t2 = Ok rs1 ->
  encode_instruction m [t1; t2; t3]
  = match parse_register t3 with
    | Ok _ => Ok (opcode * 4096 + rs1 * 512 + rd * 64)
    | Raise e => Raise e
    end.
Proof.
  intros Hin Hop H1 H2.
  pose proof (parse_register_range _ _ H1).
  pose proof (parse_register_range _ _ H2).
  rewrite (encode_known m opcode _ Hop).
  each_elem Hin;
    match goal with Hm : PyStr.upper m = _ |- _ =>
      rewrite Hm in Hop |- *; vm_compute in Hop; injection Hop as <- end;
    unfold encode_rule; cbn [String.eqb Ascii.eqb Bool.eqb];
    cbn [register_at getitem nth_error bind]; rewrite H1, H2; cbn [bind];
    (destruct (parse_register t3); cbn [bind]; [|reflexivity]);
    rewrite pack_sum by lia; f_equal; lia.
Qed.

Lemma three_register_rule_witness :
  encode_instruction "sub" ["R2"; "R0"; "R9"]
  = match parse_register "R9" with
    | Ok _ => Ok (0x2 * 4096 + 0 * 512 + 2 * 64)
    | Raise e => Raise e
    end.
Proof.
  apply (three_register_rule "sub" 0x2 "R2" "R0" "R9" 2 0).
  - cbn [PyStr.upper]. apply list_elem_of_further, list_elem_of_here.
  - reflexivity.
  - reflexivity.
  - reflexivity.
Defined.

(** X5: the encoding does not tell apart instructions that share an opcode
    nibble: [PUSH Rs] and [JNZ Rs, 0] give the same outcome for every
    operand, and so do [MUL R0, Rs, R0] and [JZ Rs, 0]. *)
Theorem opcode_alias_collisions (t : string) :
  encode_instruction "PUSH" [t] = encode_instruction "JNZ" [t; "0"]
  /\ encode_instruction "MUL" ["R0"; t; "R0"]
     = encode_instruction "JZ" [t; "0"].
Proof.
  rewrite (encode_known "PUSH" 0xE), (encode_known "JNZ" 0xE),
    (encode_known "MUL" 0xD), (encode_known "JZ" 0xD) by reflexivity.
  change (PyStr.upper "PUSH") with "PUSH".
  change (PyStr.upper "JNZ") with "JNZ".
  change (PyStr.upper "MUL") with "MUL".
  change (PyStr.upper "JZ") with "JZ".
  split; unfold encode_rule;
    cbn [String.eqb Ascii.eqb Bool.eqb];
    cbn [register_at immediate_at getitem nth_error bind];
    change (parse_register "R0") with (Ok (A:=Z) 0);
    change (parse_immediate "0") with (Ok (A:=Z) 0);
    cbn [bind];
    change (check_6bit "Jump address" 0) with (Ok tt);
    destruct (parse_register t); cbn [bind]; reflexivity.
Qed.

(** X6: [parse_register] accepts exactly the tokens that read [R0] to [R7]
    once stripped and put in upper case, and returns that digit. *)
Theorem parse_register_spec (t : string) (r : Z) :
  parse_register t = Ok r
  <-> 0 <= r <= 7 /\ PyStr.upper (PyStr.strip t) = "R" +:+ PyInt.str r.
Proof.
  unfold parse_register. split.
  - destruct (REGISTERS !! _) as [r'|] eqn:E; [|discriminate].
    intros [= <-]. apply REGISTERS_elem in E.
    each_elem E; match goal with H : PyStr.upper _ = _ |- _ =>
      rewrite H end; split; (lia || reflexivity).
  - intros [Hr ->].
    assert (r = 0 \/ r = 1 \/ r = 2 \/ r = 3 \/ r = 4 \/ r = 5
            \/ r = 6 \/ r = 7) as Hc by lia.
    decompose [or] Hc; subst r; reflexivity.
Qed.

Lemma parse_register_spec_witness : parse_register " r3 " = Ok 3.
Proof.
  apply (proj2 (parse_register_spec " r3 " 3)). split; [lia|reflexivity].
Defined.

(** ** More on immediates, comments and blank lines *)

Section Tokens.

Import PyStr PyInt.

Lemma all_chars_app (p : ascii -> bool) (s1 s2 : string) :
  all_chars p (s1 +:+ s2) = all_chars p s1 && all_chars p s2.
Proof.
  induction s1 as [|c s1 IH]; [reflexivity|].
  change (String c s1 +:+ s2) with (String c (s1 +:+ s2)).
  cbn [all_chars]. now rewrite IH, andb_assoc.
Qed.

Lemma all_chars_impl (p q : ascii -> bool) (s : string) :
  (forall c, p c = true -> q c = true) ->
  all_chars p s = true -> all_chars q s = true.
Proof.
  intros Hpq. induction s as [|c s IH]; cbn [all_chars]; [reflexivity|].
  intros [Hc Hs]%andb_prop. now rewrite (Hpq c Hc), (IH Hs).
Qed.

Lemma rstrip_no_space (s : string) :
  all_chars (fun c => negb (isspace c)) s = true -> rstrip s = s.
Proof.
  induction s as [|c s IH]; cbn [all_chars rstrip]; [reflexivity|].
  intros [Hc Hs]%andb_prop. rewrite (IH Hs).
  destruct s; [|reflexivity].
  apply negb_true_iff in Hc. now rewrite Hc.
Qed.

Lemma strip_no_space (s : string) :
  all_chars (fun c => negb (isspace c)) s = true -> strip s = s.
Proof.
  intros H. unfold strip.
  replace (lstrip s) with s; [now apply rstrip_no_space|].
  destruct s as [|c s]; [reflexivity|]. cbn [all_chars lstrip] in H |- *.
  apply andb_prop in H as [Hc _]. apply negb_true_iff in Hc.
  now rewrite Hc.
Qed.

Lemma last_char_app (s : string) (c : ascii) :
  last_char (s +:+ String c EmptyString) = Some c.
Proof.
  induction s as [|d s IH]; [reflexivity|].
  change (String d s +:+ String c EmptyString)
    with (String d (s +:+ String c EmptyString)).
  cbn [last_char]. rewrite IH.
  destruct (s +:+ String c EmptyString) eqn:E; [|reflexivity].
  destruct s; discriminate E.
Qed.

Lemma drop_last_app (s : string) (c : ascii) :
  drop_last (s +:+ String c EmptyString) = s.
Proof.
  induction s as [|d s IH]; [reflexivity|].
  change (String d s +:+ String c EmptyString)
    with (String d (s +:+ String c EmptyString)).
  cbn [drop_last]. rewrite IH.
  destruct (s +:+ String c EmptyString) eqn:E; [|reflexivity].
  destruct s; discriminate E.
Qed.

(** X7: [parse_immediate] reads the decimal text of every non-negative
    integer back as that integer, bare or wrapped in one pair of square
    brackets. *)
Theorem parse_immediate_decimal_round_trip (a : Z) :
  0 <= a ->
  parse_immediate (str a) = Ok a
  /\ parse_immediate ("[" +:+ str a +:+ "]") = Ok a.
Proof.
  intros Ha. split; [now apply parse_immediate_str|].
  pose proof (str_decimal a Ha) as Hdec.
  assert (all_chars (fun c => negb (isspace c)) ("[" +:+ str a +:+ "]")
          = true) as Hns.
  { change ("[" +:+ str a +:+ "]") with (String "[" (str a +:+ "]")).
    cbn [all_chars]. rewrite all_chars_app.
    rewrite (all_chars_impl is_decimal _ (str a)); [reflexivity| |exact Hdec].
    intros c Hc. now rewrite (decimal_not_space c Hc). }
  unfold parse_immediate. rewrite (strip_no_space _ Hns).
  change ("[" +:+ str a +:+ "]") with (String "[" (str a +:+ "]")).
  replace (startswith "[" (String "[" (str a +:+ "]"))) with true
    by (unfold startswith; cbn [String.prefix];
        destruct (ascii_dec "[" "["); [now destruct (str a +:+ "]")|easy]).
  replace (endswith "]" (String "[" (str a +:+ "]"))) with true.
  2:{ unfold endswith.
      change (String "[" (str a +:+ "]")) with (("[" +:+ str a) +:+ "]").
      now rewrite last_char_app. }
  cbn [andb slice_1_m1]. rewrite drop_last_app.
  rewrite !startswith_decimal by (exact Hdec || reflexivity).
  cbn [orb]. unfold int. now rewrite (parse_str a Ha).
Qed.

Lemma parse_immediate_decimal_round_trip_witness :
  parse_immediate (str 63) = Ok 63
  /\ parse_immediate ("[" +:+ str 63 +:+ "]") = Ok 63.
Proof. apply (parse_immediate_decimal_round_trip 63). lia. Defined.

Lemma split_head_none (sep : ascii) (s : string) :
  contains sep s = false -> hd EmptyString (split sep s) = s.
Proof.
  induction s as [|c s IH]; [reflexivity|].
  cbn [contains split]. rewrite (Ascii.eqb_sym c sep).
  destruct (Ascii.eqb sep c); [discriminate|].
  intros H. specialize (IH H).
  destruct (split sep s) as [|h t]; cbn in IH |- *; now subst.
Qed.

Lemma split_head_app (sep : ascii) (s rest : string) :
  contains sep s = false ->
  hd EmptyString (split sep (s +:+ String sep rest)) = s.
Proof.
  induction s as [|c s IH].
  - intros _. change (EmptyString +:+ String sep rest) with (String sep rest).
    cbn [split]. now rewrite Ascii.eqb_refl.
  - change (String c s +:+ String sep rest)
      with (String c (s +:+ String sep rest)).
    cbn [contains split]. rewrite (Ascii.eqb_sym c sep).
    destruct (Ascii.eqb sep c); [discriminate|].
    intros H. specialize (IH H).
    destruct (split sep (s +:+ String sep rest)) as [|h t];
      cbn in IH |- *; now subst.
Qed.

(** X8: the text from the first semicolon on has no effect on the parse of a
    line. *)
Theorem comment_ignored (code comment : string) :
  contains ";" code = false ->
  assemble_line (code +:+ String ";" comment) = assemble_line code.
Proof.
  intros H. unfold assemble_line.
  now rewrite (split_head_app ";" code comment H), (split_head_none ";" code H).
Qed.

Lemma comment_ignored_witness :
  assemble_line ("LOOP: ADD R1, R2, R3 " +:+ String ";" " add; twice")
  = assemble_line "LOOP: ADD R1, R2, R3 ".
Proof. apply (comment_ignored "LOOP: ADD R1, R2, R3 "). reflexivity. Defined.

End Tokens.

(** ** More on the two passes *)

Lemma first_pass_skip_blank (line : string) (before after : list string) :
  assemble_line line = None ->
  forall (labels : gmap string Z) (address : Z),
    first_pass (before ++ line :: after) labels address
    = first_pass (before ++ after) labels address.
Proof.
  intros Hline. induction before as [|l before IH]; intros labels address.
  - cbn [app first_pass]. now rewrite Hline.
  - cbn [app first_pass].
    destruct (assemble_line l) as [[[m ops] lab]|]; apply IH.
Qed.

Lemma second_pass_skip_blank (line : string) (before after : list string)
    (labels : gmap string Z) :
  assemble_line line = None ->
  forall (address : Z) (instructions : list (Z * Z)),
    second_pass labels (before ++ line :: after) address instructions
    = second_pass labels (before ++ after) address instructions.
Proof.
  intros Hline. induction before as [|l before IH]; intros address instructions.
  - cbn [app second_pass]. now rewrite Hline.
  - cbn [app second_pass].
    destruct (assemble_line l) as [[[m ops] lab]|]; [|apply IH].
    destruct (String.eqb m "LABEL"); [apply IH|].
    destruct (encode_instruction m _); [apply IH|reflexivity].
Qed.

(** X9: a line that is blank once its comment is removed can be deleted from
    a source without changing the label table or the outcome. *)
Theorem blank_line_invisible (labels : gmap string Z)
    (source source' : string) (before after : list string) (line : string) :
  PyStr.strip (hd EmptyString (PyStr.split ";" line)) = EmptyString ->
  source_lines source = before ++ line :: after ->
  source_lines source' = before ++ after ->
  assemble labels source = assemble labels source'.
Proof.
  intros Hblank Hsrc Hsrc'.
  assert (assemble_line line = None) as Hline
    by (unfold assemble_line; now rewrite Hblank).
  unfold assemble. rewrite Hsrc, Hsrc'.
  rewrite (first_pass_skip_blank line before after Hline).
  now rewrite (second_pass_skip_blank line before after _ Hline).
Qed.

Lemma blank_line_invisible_witness :
  assemble init_labels
    (unlines ["LOADI R0, 1"; "   ; only a comment"; "HALT"])
  = assemble init_labels (unlines ["LOADI R0, 1"; "HALT"]).
Proof.
  apply (blank_line_invisible init_labels
           (unlines ["LOADI R0, 1"; "   ; only a comment"; "HALT"])
           (unlines ["LOADI R0, 1"; "HALT"])
           ["LOADI R0, 1"] ["HALT"] "   ; only a comment");
    reflexivity.
Defined.

(** Over a prefix whose statements all encode, the second pass only moves
    the address counter and extends the instruction list. *)
Lemma second_pass_prefix (labels : gmap string Z) (before rest : list string) :
  Forall (fun line => encodes labels line = true) before ->
  forall (address : Z) (instructions : list (Z * Z)),
  exists new : list (Z * Z),
    second_pass labels (before ++ rest) address instructions
    = second_pass labels rest
        (address + Z.of_nat (count_statements before))
        (instructions ++ new).
Proof.
  induction 1 as [|line before Hline _ IH]; intros address instructions.
  - exists []. cbn [app]. rewrite app_nil_r. f_equal.
    unfold count_statements. cbn. lia.
  - cbn [app second_pass]. rewrite count_statements_cons.
    unfold encodes in Hline.
    destruct (assemble_line line) as [[[m ops] lab]|] eqn:El.
    + rewrite (is_statement_parsed _ _ _ _ El).
      destruct (String.eqb m "LABEL"); cbn [negb orb] in Hline |- *.
      * destruct (IH address instructions) as [new Heq].
        exists new. rewrite Heq. f_equal; lia.
      * destruct (encode_instruction m _) as [w|e]; [|discriminate].
        destruct (IH (address + 1) (instructions ++ [(address, w)]))
          as [new Heq].
        exists ((address, w) :: new). rewrite Heq.
        rewrite <- app_assoc. f_equal; lia.
    + rewrite (is_statement_blank _ El).
      destruct (IH address instructions) as [new Heq].
      exists new. rewrite Heq. f_equal; lia.
Qed.

(** X10: assembly stops at the first statement that fails to encode, and the
    error it raises carries the address of that statement, which is the
    number of statements before it, and the message of the encoder. *)
Theorem first_error_reported (labels : gmap string Z) (source : string)
    (before after : list string) (line mnemonic : string)
    (operands : list string) (label : option string) (e : exn) :
  source_lines source = before ++ line :: after ->
  Forall (fun x => encodes (fst (assemble labels source)) x = true) before ->
  assemble_line line = Some (mnemonic, operands, label) ->
  String.eqb mnemonic "LABEL" = false ->
  encode_instruction mnemonic
    (replace_labels (fst (assemble labels source)) operands) = Raise e ->
  snd (assemble labels source)
  = Raise (ValueError
             ("Error at address "
              +:+ PyInt.str (Z.of_nat (count_statements before))
              +:+ ": " +:+ exn_str e)).
Proof.
  unfold assemble. cbn [fst snd]. intros Hsrc Hbefore Hline Hm He.
  rewrite Hsrc at 2.
  destruct (second_pass_prefix _ before (line :: after) Hbefore 0 [])
    as [new ->].
  cbn [second_pass]. rewrite Hline, Hm, He. reflexivity.
Qed.

Lemma first_error_reported_witness :
  snd (assemble init_labels (unlines ["HALT"; "LOADI R0, 64"; "FOO"]))
  = Raise (ValueError
             ("Error at address "
              +:+ PyInt.str (Z.of_nat (count_statements ["HALT"]))
              +:+ ": "
              +:+ exn_str (ValueError
                    "Immediate value 64 exceeds 6-bit range (0-63)"))).
Proof.
  apply (first_error_reported init_labels
           (unlines ["HALT"; "LOADI R0, 64"; "FOO"])
           ["HALT"] ["FOO"] "LOADI R0, 64" "LOADI" ["R0"; "64"] None).
  - reflexivity.
  - repeat constructor.
  - reflexivity.
  - reflexivity.
  - reflexivity.
Defined.

Lemma second_pass_ok_inv (labels : gmap string Z) (lines : list string) :
  forall (address : Z) (instructions : list (Z * Z)),
    is_ok (second_pass labels lines address instructions) = true ->
    Forall (fun line => encodes labels line = true) lines.
Proof.
  induction lines as [|line lines IH]; intros address instructions H.
  - constructor.
  - cbn [second_pass] in H.
    assert (encodes labels line = true
            /\ exists a i, is_ok (second_pass labels lines a i) = true)
      as [Hline (a & i & Hrest)].
    { unfold encodes.
      destruct (assemble_line line) as [[[m ops] lab]|]; [|eauto].
      destruct (String.eqb m "LABEL"); cbn [orb]; [eauto|].
      destruct (encode_instruction m _); [eauto|discriminate]. }
    constructor; [exact Hline|]. eapply IH, Hrest.
Qed.

(** X11: assembly succeeds exactly when every statement of the source encodes
    under the label table of the first pass. *)
Theorem assemble_ok_iff (labels : gmap string Z) (source : string) :
  is_ok (snd (assemble labels source)) = true
  <-> Forall (fun x => encodes (fst (assemble labels source)) x = true)
        (source_lines source).
Proof.
  unfold assemble. cbn [fst snd]. split.
  - apply second_pass_ok_inv.
  - intros H. now apply second_pass_ok.
Qed.

Lemma assemble_ok_iff_witness :
  is_ok (snd (assemble init_labels forward_inline_label)) = true.
Proof.
  apply (proj2 (assemble_ok_iff init_labels forward_inline_label)).
  change (source_lines forward_inline_label)
    with ["JUMP END"; "LOADI R0, 1"; "END: HALT"].
  repeat (apply List.Forall_cons; [vm_compute; reflexivity|]).
  apply List.Forall_nil.
Defined.

(** The word of every appended instruction is the encoding of its
    statement, operands taken after label replacement. *)
Lemma second_pass_words (labels : gmap string Z) (lines : list string) :
  forall (address : Z) (instructions result : list (Z * Z)),
    second_pass labels lines address instructions = Ok result ->
    exists new : list (Z * Z),
      result = instructions ++ new
      /\ Forall2
           (fun line iw =>
              exists mnemonic operands label,
                assemble_line line = Some (mnemonic, operands, label)
                /\ encode_instruction mnemonic
                     (replace_labels labels operands) = Ok (snd iw))
           (List.filter is_statement lines) new.
Proof.
  induction lines as [|line lines IH]; intros address instructions result H.
  - cbn in H. injection H as <-. exists []. split; [|constructor].
    now rewrite app_nil_r.
  - cbn [second_pass] in H. cbn [List.filter].
    destruct (assemble_line line) as [[[m ops] lab]|] eqn:El.
    + rewrite (is_statement_parsed _ _ _ _ El).
      destruct (String.eqb m "LABEL"); cbn [negb].
      * exact (IH _ _ _ H).
      * destruct (encode_instruction m _) as [w|e] eqn:Ew; [|discriminate].
        destruct (IH _ _ _ H) as (new & -> & Hnew).
        exists ((address, w) :: new). split; [now rewrite <- app_assoc|].
        constructor; [|exact Hnew]. exists m, ops, lab. now split.
    + rewrite (is_statement_blank _ El). exact (IH _ _ _ H).
Qed.

(** X12: on success the words come out in source order, one per statement,
    each the encoding of its statement with the labels of the whole source
    replaced by their addresses. *)
Theorem assemble_words (labels : gmap string Z) (source : string)
    (instructions : list (Z * Z)) :
  snd (assemble labels source) = Ok instructions ->
  Forall2
    (fun line iw =>
       exists mnemonic operands label,
         assemble_line line = Some (mnemonic, operands, label)
         /\ encode_instruction mnemonic
              (replace_labels (fst (assemble labels source)) operands)
            = Ok (snd iw))
    (List.filter is_statement (source_lines source)) instructions.
Proof.
  unfold assemble. cbn [fst snd]. intros H.
  destruct (second_pass_words _ _ _ _ _ H) as (new & Heq & Hnew).
  cbn [app] in Heq. now subst.
Qed.

Lemma assemble_words_witness :
  Forall2
    (fun line iw =>
       exists mnemonic operands label,
         assemble_line line = Some (mnemonic, operands, label)
         /\ encode_instruction mnemonic
              (replace_labels
                 (fst (assemble init_labels forward_inline_label)) operands)
            = Ok (snd iw))
    (List.filter is_statement (source_lines forward_inline_label))
    [(0, 0xC002); (1, 0x0001); (2, 0xF000)].
Proof.
  apply (assemble_words init_labels forward_inline_label).
  vm_compute. reflexivity.
Defined.

(** An entry of the table after the first pass is an old entry or an address
    reached by the counter. *)
Lemma first_pass_bounds (l : string) (x : Z) (lines : list string) :
  forall (labels : gmap string Z) (address : Z),
    first_pass lines labels address !! l = Some x ->
    labels !! l = Some x
    \/ address <= x <= address + Z.of_nat (count_statements lines).
Proof.
  induction lines as [|line lines IH]; intros labels address H.
  - now left.
  - cbn [first_pass] in H. rewrite count_statements_cons.
    destruct (assemble_line line) as [[[m ops] lab]|] eqn:El.
    + rewrite (is_statement_parsed _ _ _ _ El).
      apply IH in H as [H|H].
      * destruct lab as [l'|]; [|now left].
        destruct (PyStr.nonempty l'); [|now left].
        destruct (decide (l' = l)) as [->|Hne].
        -- rewrite lookup_insert_eq in H. injection H as <-. right. lia.
        -- rewrite lookup_insert_ne in H by exact Hne. now left.
      * right. destruct (String.eqb m "LABEL"); cbn [negb] in H |- *; lia.
    + rewrite (is_statement_blank _ El).
      apply IH in H as [H|H]; [now left|right; lia].
Qed.

Lemma first_pass_keeps (l : string) (lines : list string) :
  forall (labels : gmap string Z) (address : Z),
    is_Some (labels !! l) ->
    is_Some (first_pass lines labels address !! l).
Proof.
  induction lines as [|line lines IH]; intros labels address H; [exact H|].
  cbn [first_pass].
  destruct (assemble_line line) as [[[m ops] [l'|]]|]; try (apply IH, H).
  destruct (PyStr.nonempty l'); apply IH; [|exact H].
  destruct (decide (l' = l)) as [->|Hne].
  - rewrite lookup_insert_eq. eauto.
  - now rewrite lookup_insert_ne.
Qed.

(** X13: every address that a run enters in the label table lies between 0
    and the number of statements of the source; 0..N-1 are the addresses of
    instructions, N is one past the last. *)
Theorem label_addresses_bounded (labels : gmap string Z) (source l : string)
    (x : Z) :
  fst (assemble labels source) !! l = Some x ->
  labels !! l = Some x
  \/ 0 <= x <= Z.of_nat (count_statements (source_lines source)).
Proof. unfold assemble. cbn [fst]. apply first_pass_bounds. Qed.

Lemma label_addresses_bounded_witness :
  init_labels !! "END" = Some 2
  \/ 0 <= 2 <= Z.of_nat (count_statements (source_lines forward_inline_label)).
Proof.
  apply (label_addresses_bounded init_labels forward_inline_label "END" 2).
  vm_compute. reflexivity.
Defined.

(** X14: [assemble] never clears the label table: a label that the table held
    before the call is still bound after it, with its old address unless a
    line of the source binds it again. *)
Theorem labels_survive (labels : gmap string Z) (source l : string) :
  (is_Some (labels !! l) -> is_Some (fst (assemble labels source) !! l))
  /\ (Forall (fun line => binds l line = false) (source_lines source) ->
      fst (assemble labels source) !! l = labels !! l).
Proof.
  unfold assemble. cbn [fst]. split.
  - apply first_pass_keeps.
  - intros H. now apply first_pass_unbound.
Qed.

Lemma labels_survive_witness :
  fst (assemble {["OLD" := 7]} forward_inline_label) !! "OLD"
  = ({["OLD" := 7]} : gmap string Z) !! "OLD".
Proof.
  apply (proj2 (labels_survive {["OLD" := 7]} forward_inline_label "OLD")).
  repeat constructor.
Defined.

(** ** The Verilog block *)

Section Formatter.

Import PyStr PyInt.

Lemma holds_from_spec (p : Z -> bool) (fuel : nat) :
  forall a x : Z,
    holds_from p a fuel = true -> a <= x < a + Z.of_nat fuel -> p x = true.
Proof.
  induction fuel as [|fuel IH]; intros a x H Hx; [lia|].
  cbn [holds_from] in H. apply andb_prop in H as [Ha Hrest].
  destruct (Z.eq_dec x a) as [->|Hne]; [exact Ha|].
  apply (IH (a + 1)); [exact Hrest|lia].
Qed.

Lemma hex_words_ok : holds_from hex_word_ok 0 (Z.to_nat 65536) = true.
Proof. vm_compute. reflexivity. Qed.

(** X15: every 16-bit word is written by [format_verilog] as exactly four
    hexadecimal digits, and [parse_immediate] reads these digits back,
    behind the prefix [0x], as the same word. *)
Theorem hex_word_round_trip (w : Z) :
  0 <= w < 65536 ->
  String.length (format_04X w) = 4%nat
  /\ parse_immediate ("0x" +:+ format_04X w) = Ok w.
Proof.
  intros Hw.
  pose proof (holds_from_spec hex_word_ok _ 0 w hex_words_ok) as H.
  rewrite Z2Nat.id in H by lia. specialize (H ltac:(lia)).
  unfold hex_word_ok in H. apply andb_prop in H as [Hlen Hparse].
  split; [now apply Nat.eqb_eq|].
  destruct (parse_immediate _) as [v|]; [|discriminate].
  apply Z.eqb_eq in Hparse. now subst.
Qed.

Lemma hex_word_round_trip_witness :
  String.length (format_04X 0xC03F) = 4%nat
  /\ parse_immediate ("0x" +:+ format_04X 0xC03F) = Ok 0xC03F.
Proof. apply (hex_word_round_trip 0xC03F). lia. Defined.

Lemma contains_all_chars (c : ascii) (s : string) :
  contains c s = false
  <-> all_chars (fun d => negb (Ascii.eqb c d)) s = true.
Proof.
  induction s as [|d s IH]; cbn [contains all_chars]; [easy|].
  destruct (Ascii.eqb c d); cbn [negb andb]; [easy|exact IH].
Qed.

Lemma split_no_sep (sep : ascii) (s : string) :
  contains sep s = false -> split sep s = [s].
Proof.
  induction s as [|c s IH]; [reflexivity|].
  cbn [contains split]. rewrite (Ascii.eqb_sym c sep).
  destruct (Ascii.eqb sep c); [discriminate|].
  intros H. now rewrite (IH H).
Qed.

Lemma split_app_sep (sep : ascii) (s rest : string) :
  contains sep s = false ->
  split sep (s +:+ String sep rest) = s :: split sep rest.
Proof.
  induction s as [|c s IH].
  - intros _. change (EmptyString +:+ String sep rest) with (String sep rest).
    cbn [split]. now rewrite Ascii.eqb_refl.
  - change (String c s +:+ String sep rest)
      with (String c (s +:+ String sep rest)).
    cbn [contains split]. rewrite (Ascii.eqb_sym c sep).
    destruct (Ascii.eqb sep c); [discriminate|].
    intros H. now rewrite (IH H).
Qed.

(** Splitting a joined list gives the list back when no piece holds the
    separator. *)
Lemma split_join (sep : ascii) (l : list string) :
  l <> [] ->
  Forall (fun s => contains sep s = false) l ->
  split sep (join (String sep EmptyString) l) = l.
Proof.
  induction l as [|x l IH]; [easy|]. intros _ Hall.
  apply Forall_cons in Hall as [Hx Hl].
  destruct l as [|y l]; [now apply split_no_sep|].
  change (join (String sep EmptyString) (x :: y :: l))
    with (x +:+ String sep (join (String sep EmptyString) (y :: l))).
  rewrite (split_app_sep sep x _ Hx). f_equal. now apply IH.
Qed.

Lemma all_chars_upper (q : ascii -> bool) (s : string) :
  all_chars q (upper s) = all_chars (fun c => q (upper_char c)) s.
Proof.
  induction s as [|c s IH]; cbn [upper all_chars]; [reflexivity|].
  now rewrite IH.
Qed.

Lemma hex_uint_no_newline (d : Hexadecimal.uint) :
  all_chars (fun c => negb (Ascii.eqb "010" (upper_char c)))
    (HexadecimalString.NilEmpty.string_of_uint d) = true.
Proof. induction d; simpl; auto. Qed.

Lemma hex_upper_no_newline (n : N) :
  all_chars (fun c => negb (Ascii.eqb "010" c)) (hex_upper n) = true.
Proof.
  unfold hex_upper. rewrite all_chars_upper.
  unfold HexadecimalString.NilZero.string_of_uint.
  destruct (N.to_hex_uint n) eqn:E; try reflexivity;
    rewrite <- E; apply hex_uint_no_newline.
Qed.

Lemma repeat_str_chars (p : ascii -> bool) (c : ascii) (n : Z) :
  p c = true -> all_chars p (repeat_str (String c EmptyString) n) = true.
Proof.
  intros Hc. unfold repeat_str.
  induction (Z.to_nat n) as [|k IH]; [reflexivity|].
  rewrite Nat.iter_succ, all_chars_app, IH.
  cbn [all_chars]. now rewrite Hc.
Qed.

Lemma format_04X_no_newline (n : Z) :
  all_chars (fun c => negb (Ascii.eqb "010" c)) (format_04X n) = true.
Proof.
  unfold format_04X. rewrite !all_chars_app.
  rewrite hex_upper_no_newline, repeat_str_chars by reflexivity.
  now destruct (n <? 0).
Qed.

Lemma str_neg (p : positive) :
  str (Z.neg p) = String "-" (NilEmpty.string_of_uint (Pos.to_uint p)).
Proof.
  unfold str, Z.to_int, NilZero.string_of_int, NilZero.string_of_uint.
  pose proof (Unsigned.to_uint_nonnil p) as Hp.
  destruct (Pos.to_uint p); [contradiction|reflexivity..].
Qed.

Lemma str_no_newline (a : Z) :
  all_chars (fun c => negb (Ascii.eqb "010" c)) (str a) = true.
Proof.
  assert (forall s, all_chars is_decimal s = true ->
                    all_chars (fun c => negb (Ascii.eqb "010" c)) s = true)
    as Hdec.
  { intros s. apply all_chars_impl. intros c Hc.
    destruct c as [[|] [|] [|] [|] [|] [|] [|] [|]];
      cbv in Hc; try discriminate Hc; reflexivity. }
  destruct a as [|p|p].
  - reflexivity.
  - apply Hdec, str_decimal. lia.
  - rewrite str_neg. cbn [all_chars]. rewrite Hdec by apply uint_decimal.
    reflexivity.
Qed.

Lemma verilog_line_no_newline (instruction : Z * Z) :
  contains "010" (verilog_line instruction) = false.
Proof.
  apply contains_all_chars. destruct instruction as [addr inst].
  unfold verilog_line. rewrite !all_chars_app.
  now rewrite str_no_newline, format_04X_no_newline.
Qed.

(** X16: the block that [format_verilog] writes has the six fixed lines of
    the zero-fill followed by exactly one assignment line per instruction,
    in the order of the instructions. *)
Theorem format_verilog_lines (instructions : list (Z * Z)) :
  source_lines (format_verilog instructions)
  = verilog_header ++ map verilog_line instructions.
Proof.
  unfold source_lines, format_verilog. apply split_join; [easy|].
  apply Forall_app. split.
  - repeat constructor.
  - induction instructions as [|instruction instructions IH]; cbn [map];
      constructor; [apply verilog_line_no_newline|exact IH].
Qed.

End Formatter.

(** ** The compiler front end *)

Section FrontEnd.

Import PyStr PyInt AdvancedCompiler.

(** X17: the two parsers skip the same lines and read the same mnemonic from
    every other line, but each keeps the labels that the other drops: a label
    that shares its line with a statement is kept by [assemble_line] only,
    a label alone on its line by [AdvancedCompiler.parse] only. *)
Theorem parsers_agree (line : string) :
  (fun p : parsed => p.1.1) <$> parse_line line
  = (fun p : parsed => p.1.1) <$> assemble_line line
  /\ (forall m ops l,
        assemble_line line = Some (m, ops, Some l) ->
        parse_line line = Some (m, ops, None))
  /\ (forall m ops l,
        parse_line line = Some (m, ops, Some l) ->
        m = "LABEL" /\ ops = []
        /\ assemble_line line = Some ("LABEL", [l], None)).
Proof.
  unfold parse_line, assemble_line.
  destruct (negb (nonempty (strip (hd EmptyString (split ";" line)))));
    [repeat split; discriminate|].
  destruct (contains ":" (strip (hd EmptyString (split ";" line)))).
  - destruct (negb (nonempty (strip (nth 1 (split1 ":" _) EmptyString)))).
    + split; [reflexivity|]. split; [discriminate|].
      intros m ops l [= <- <- <-]. now repeat split.
    + unfold parse_statement. split; [reflexivity|].
      split; [now intros m ops l [= <- <- <-]|discriminate].
  - unfold parse_statement. repeat split; discriminate.
Qed.

Lemma parsers_agree_witness :
  parse_line "LOOP: ADD R1, R2, R3" = Some ("ADD", ["R1"; "R2"; "R3"], None)
  /\ assemble_line "END:" = Some ("LABEL", ["END"], None).
Proof.
  split.
  - apply (proj1 (proj2 (parsers_agree "LOOP: ADD R1, R2, R3"))
             "ADD" ["R1"; "R2"; "R3"] "LOOP").
    reflexivity.
  - apply (proj2 (proj2 (parsers_agree "END:")) "LABEL" [] "END").
    reflexivity.
Defined.

Lemma upper_char_R (c : ascii) :
  upper_char c = "R"%char -> c = "R"%char \/ c = "r"%char.
Proof.
  destruct c as [[|] [|] [|] [|] [|] [|] [|] [|]]; cbv;
    intros H; try discriminate H; auto.
Qed.

Lemma rstrip_head (s : string) (c : ascii) (r : string) :
  rstrip s = String c r -> exists s', s = String c s'.
Proof.
  destruct s as [|a s]; cbn [rstrip]; [discriminate|].
  destruct (rstrip s); [destruct (isspace a)|]; intros [= <- _]; eauto.
Qed.

(** A token that names a register is not an integer literal. *)
Lemma register_not_int (t : string) (r : Z) :
  parse_register t = Ok r -> PyInt.parse t 10 = None.
Proof.
  unfold parse_register.
  destruct (REGISTERS !! _) as [r'|] eqn:E; [|discriminate]. intros _.
  apply REGISTERS_head in E as [s' Es]. unfold strip in Es.
  destruct (rstrip (lstrip t)) as [|c u] eqn:Er; [discriminate|].
  cbn [upper] in Es. injection Es as Hc _.
  apply rstrip_head in Er as [u' Hl].
  unfold PyInt.parse. rewrite Hl.
  destruct (upper_char_R c Hc) as [-> | ->]; reflexivity.
Qed.

Lemma int_not_register (t : string) (x : Z) :
  PyInt.parse t 10 = Some x -> is_ok (parse_register t) = false.
Proof.
  intros H. destruct (parse_register t) as [r|] eqn:E; [|reflexivity].
  rewrite (register_not_int t r E) in H. discriminate.
Qed.

(** X18: [constant_folding] changes nothing in a list whose [ADD]
    instructions are all accepted by the assembler's encoder: a register
    name never parses as an integer. *)
Theorem constant_folding_idle (instructions : list parsed) :
  Forall (fun ins : parsed =>
            ins.1.1 = "ADD" ->
            is_ok (encode_instruction "ADD" ins.1.2) = true) instructions ->
  constant_folding instructions = instructions.
Proof.
  unfold constant_folding.
  induction 1 as [|[[m ops] lab] instructions Hins _ IH]; [reflexivity|].
  cbn [map]. rewrite IH. f_equal. cbn [fst snd] in Hins.
  unfold fold_constant.
  destruct (String.eqb_spec m "ADD") as [->|]; [|reflexivity].
  destruct ops as [|d [|a [|b [|c ops]]]]; try reflexivity.
  cbn [length Nat.eqb andb nth].
  specialize (Hins eq_refl).
  rewrite (encode_known "ADD" 0x1) in Hins by reflexivity.
  change (upper "ADD") with "ADD" in Hins.
  unfold encode_rule in Hins. cbn [String.eqb Ascii.eqb Bool.eqb] in Hins.
  cbn [register_at getitem nth_error bind] in Hins.
  destruct (parse_register d); [|discriminate Hins]. cbn [bind] in Hins.
  destruct (parse_register a) as [ra|] eqn:Ea; [|discriminate Hins].
  now rewrite (register_not_int a ra Ea).
Qed.

Lemma constant_folding_idle_witness :
  constant_folding [("ADD", ["R1"; "R2"; "R3"], None); ("HALT", [], None)]
  = [("ADD", ["R1"; "R2"; "R3"], None); ("HALT", [], None)].
Proof.
  apply (constant_folding_idle
           [("ADD", ["R1"; "R2"; "R3"], None); ("HALT", [], None)]).
  constructor; [intros _; reflexivity|].
  constructor; [intros H; discriminate H|]. constructor.
Defined.

(** X19: an [ADD] of a register and two integer literals whose sum is 0..63
    is folded into a [LOADI] of the sum; the assembler refuses the [ADD] and
    encodes the [LOADI] with the sum in its low six bits. *)
Theorem folded_add_assembles (d a b : string) (label : option string)
    (rd x y : Z) :
  parse_register d = Ok rd ->
  PyInt.parse a 10 = Some x ->
  PyInt.parse b 10 = Some y ->
  0 <= x + y <= 63 ->
  fold_constant ("ADD", [d; a; b], label)
  = ("LOADI", [d; str (x + y)], None)
  /\ encode_instruction "LOADI" [d; str (x + y)] = Ok (rd * 512 + (x + y))
  /\ is_ok (encode_instruction "ADD" [d; a; b]) = false.
Proof.
  intros Hd Ha Hb Hsum. pose proof (parse_register_range _ _ Hd) as Hrd.
  split; [|split].
  - unfold fold_constant. cbn [String.eqb Ascii.eqb Bool.eqb length Nat.eqb
                               andb nth].
    rewrite Ha, Hb.
    replace (0 <=? x + y) with true by lia.
    replace (x + y <=? 63) with true by lia. reflexivity.
  - rewrite (encode_known "LOADI" 0x0) by reflexivity.
    change (upper "LOADI") with "LOADI".
    unfold encode_rule. cbn [String.eqb Ascii.eqb Bool.eqb].
    cbn [register_at immediate_at getitem nth_error bind].
    rewrite Hd, parse_immediate_str by lia. cbn [bind].
    unfold check_6bit. replace (x + y >? 63) with false by lia.
    cbn [bind]. rewrite pack_sum by lia. f_equal. lia.
  - rewrite (encode_known "ADD" 0x1) by reflexivity.
    change (upper "ADD") with "ADD".
    unfold encode_rule. cbn [String.eqb Ascii.eqb Bool.eqb].
    cbn [register_at getitem nth_error bind].
    rewrite Hd. cbn [bind].
    pose proof (int_not_register a x Ha) as Hna.
    destruct (parse_register a); [discriminate Hna|reflexivity].
Qed.

Lemma folded_add_assembles_witness :
  fold_constant ("ADD", ["R1"; "5"; "10"], Some "L")
  = ("LOADI", ["R1"; str (5 + 10)], None)
  /\ encode_instruction "LOADI" ["R1"; str (5 + 10)]
     = Ok (1 * 512 + (5 + 10))
  /\ is_ok (encode_instruction "ADD" ["R1"; "5"; "10"]) = false.
Proof.
  apply (folded_add_assembles "R1" "5" "10" (Some "L") 1 5 10);
    [reflexivity..|lia].
Defined.

End FrontEnd.

(** ** Optimization passes and label addresses *)

Section Passes.

Import AdvancedCompiler.

Lemma filter_filter_sub {A : Type} (p q : A -> bool) (l : list A) :
  (forall x, p x = true -> q x = true) ->
  List.filter p (List.filter q l) = List.filter p l.
Proof.
  intros Hpq. induction l as [|x l IH]; [reflexivity|].
  cbn [List.filter]. destruct (q x) eqn:Hq; cbn [List.filter].
  - now rewrite IH.
  - destruct (p x) eqn:Hp; [|exact IH].
    rewrite (Hpq x Hp) in Hq. discriminate.
Qed.

Lemma kept_takes_address (referenced : gset string) (ins : parsed) :
  takes_address ins = true -> kept referenced ins = true.
Proof.
  destruct ins as [[m ops] lab]. unfold takes_address, kept. cbn [fst].
  now destruct (String.eqb m "LABEL").
Qed.

Lemma dead_code_filter (symbols : gmap string Z)
    (instructions : list parsed) :
  List.filter takes_address (dead_code_elimination symbols instructions)
  = List.filter takes_address instructions.
Proof.
  unfold dead_code_elimination.
  apply filter_filter_sub, kept_takes_address.
Qed.

(** X20: [dead_code_elimination] removes label entries only: the statements
    of its result are the statements of its argument, in the same order,
    and an entry for the label [START] is never removed. *)
Theorem dead_code_keeps_statements (symbols : gmap string Z)
    (instructions : list parsed) :
  List.filter takes_address (dead_code_elimination symbols instructions)
  = List.filter takes_address instructions
  /\ (forall operands,
        In ("LABEL", operands, Some "START") instructions ->
        In ("LABEL", operands, Some "START")
          (dead_code_elimination symbols instructions)).
Proof.
  split.
  - apply dead_code_filter.
  - unfold dead_code_elimination. intros operands Hin. apply filter_In. split; [exact Hin|].
    unfold kept. cbn [String.eqb Ascii.eqb Bool.eqb].
    apply orb_true_r.
Qed.

Lemma dead_code_keeps_statements_witness :
  In ("LABEL", [], Some "START")
    (dead_code_elimination ∅
       [("LABEL", [], Some "START"); ("HALT", [], None)]).
Proof.
  apply (proj2 (dead_code_keeps_statements ∅
                  [("LABEL", [], Some "START"); ("HALT", [], None)]) []).
  left. reflexivity.
Defined.

Lemma fold_constant_cases (ins : parsed) :
  fold_constant ins = ins
  \/ (ins.1.1 = "ADD"
      /\ exists operands, fold_constant ins = ("LOADI", operands, None)).
Proof.
  destruct ins as [[m ops] lab]. unfold fold_constant. cbn [fst].
  destruct (String.eqb_spec m "ADD") as [->|]; [|now left].
  destruct (Nat.eqb (length ops) 3); cbn [andb]; [|now left].
  destruct (PyInt.parse (nth 1 ops EmptyString) 10); [|now left].
  destruct (PyInt.parse (nth 2 ops EmptyString) 10); [|now left].
  destruct ((0 <=? _) && (_ <=? 63)); [|now left].
  right. split; [reflexivity|]. eauto.
Qed.

Lemma fold_constant_takes_address (ins : parsed) :
  takes_address (fold_constant ins) = takes_address ins.
Proof.
  destruct (fold_constant_cases ins) as [->|[Hadd [ops ->]]]; [reflexivity|].
  unfold takes_address. now rewrite Hadd.
Qed.

Lemma instruction_scheduling_id (instructions : list parsed) :
  instruction_scheduling instructions = instructions.
Proof.
  unfold instruction_scheduling.
  induction instructions as [|[[m ops] lab] l IH]; [reflexivity|].
  cbn [map]. now rewrite IH.
Qed.

Lemma constant_folding_count (instructions : list parsed) :
  length (List.filter takes_address (constant_folding instructions))
  = length (List.filter takes_address instructions).
Proof.
  unfold constant_folding.
  induction instructions as [|ins l IH]; [reflexivity|].
  cbn [map List.filter]. rewrite fold_constant_takes_address.
  destruct (takes_address ins); cbn [length]; now rewrite IH.
Qed.

(** X21: whatever optimizations are enabled, [optimize] returns as many
    statements as it was given, so that no statement changes its address. *)
Theorem optimize_keeps_statement_count (enabled : flags)
    (symbols : gmap string Z) (instructions : list parsed) :
  length (List.filter takes_address (optimize enabled symbols instructions))
  = length (List.filter takes_address instructions).
Proof.
  destruct enabled as [f d r s]. unfold optimize.
  cbn [constant_folding_on dead_code_elimination_on register_allocation_on
       instruction_scheduling_on].
  unfold register_allocation.
  assert (forall l : list parsed,
            (if s then instruction_scheduling l else l) = l) as Hs
    by (intros l; destruct s; [apply instruction_scheduling_id|reflexivity]).
  rewrite Hs. destruct r, d, f;
    rewrite ?dead_code_filter, ?constant_folding_count; reflexivity.
Qed.

Lemma collect_filter_kept (referenced : gset string) (l : string) :
  kept_label referenced l = true ->
  forall (instructions : list parsed) (s1 s2 : gmap string Z) (a : Z),
    s1 !! l = s2 !! l ->
    collect_symbols (List.filter (kept referenced) instructions) s1 a !! l
    = collect_symbols instructions s2 a !! l.
Proof.
  intros Hl. induction instructions as [|[[m ops] lab] instrs IH];
    intros s1 s2 a Hs; [exact Hs|].
  cbn [List.filter]. destruct (kept referenced (m, ops, lab)) eqn:K.
  - cbn [collect_symbols]. apply IH.
    destruct lab as [l'|]; [|exact Hs].
    destruct (PyStr.nonempty l'); [|exact Hs].
    destruct (decide (l' = l)) as [->|Hne].
    + now rewrite !lookup_insert_eq.
    + now rewrite !lookup_insert_ne.
  - cbn [collect_symbols]. unfold kept in K.
    destruct (String.eqb m "LABEL"); [|discriminate K]. cbn [negb].
    apply IH. destruct lab as [l'|]; [|exact Hs].
    destruct (PyStr.nonempty l'); [|exact Hs].
    rewrite lookup_insert_ne; [exact Hs|].
    intros ->. unfold kept_label in Hl. congruence.
Qed.

Lemma collect_filter_dropped (referenced : gset string) (l : string) :
  kept_label referenced l = false ->
  forall instructions : list parsed,
    Forall label_on_marker instructions ->
    forall (s : gmap string Z) (a : Z),
      collect_symbols (List.filter (kept referenced) instructions) s a !! l
      = s !! l.
Proof.
  intros Hl. induction 1 as [|[[m ops] lab] instrs Hshape _ IH];
    intros s a; [reflexivity|].
  cbn [List.filter]. destruct (kept referenced (m, ops, lab)) eqn:K;
    [|apply IH].
  cbn [collect_symbols]. rewrite IH.
  destruct lab as [l'|]; [|reflexivity].
  destruct (PyStr.nonempty l'); [|reflexivity].
  apply lookup_insert_ne. intros ->.
  unfold label_on_marker in Hshape. cbn [fst snd] in Hshape.
  rewrite Hshape in K by eauto. unfold kept, kept_label in *.
  cbn [String.eqb Ascii.eqb Bool.eqb] in K. congruence.
Qed.

Lemma parse_line_shape (line : string) (ins : parsed) :
  parse_line line = Some ins -> label_on_marker ins.
Proof.
  unfold parse_line, label_on_marker.
  destruct (negb (PyStr.nonempty _)); [discriminate|].
  destruct (PyStr.contains ":" _).
  - destruct (negb (PyStr.nonempty _)); intros [= <-]; cbn [fst snd];
      [reflexivity|intros [? [=]]].
  - intros [= <-]. cbn [fst snd]. intros [? [=]].
Qed.

Lemma parse_shape (source : string) :
  Forall label_on_marker (parse source).
Proof.
  unfold parse. induction (source_lines source) as [|line lines IH];
    [constructor|].
  cbn. destruct (parse_line line) as [ins|] eqn:E; [|exact IH].
  constructor; [eapply parse_line_shape, E|exact IH].
Qed.

Lemma constant_folding_collect (instructions : list parsed) :
  Forall label_on_marker instructions ->
  Forall label_on_marker (constant_folding instructions)
  /\ forall (s : gmap string Z) (a : Z),
       collect_symbols (constant_folding instructions) s a
       = collect_symbols instructions s a.
Proof.
  unfold constant_folding.
  induction 1 as [|ins instrs Hshape _ [IHs IHc]]; [now split|].
  cbn [map].
  destruct (fold_constant_cases ins) as [->|[Hadd [ops Hf]]].
  - split; [now constructor|]. intros s a.
    destruct ins as [[m o] lab]. cbn [collect_symbols]. apply IHc.
  - rewrite Hf. split.
    + constructor; [|exact IHs]. intros [? [=]].
    + intros s a. destruct ins as [[m o] lab]. cbn [fst] in Hadd. subst m.
      destruct lab as [l'|].
      * unfold label_on_marker in Hshape. cbn [fst snd] in Hshape.
        discriminate Hshape. eauto.
      * cbn [collect_symbols]. apply IHc.
Qed.

Lemma filter_shape (p : parsed -> bool) (instructions : list parsed) :
  Forall label_on_marker instructions ->
  Forall label_on_marker (List.filter p instructions).
Proof.
  induction 1 as [|ins instrs Hshape _ IH]; [constructor|].
  cbn [List.filter]. destruct (p ins); [now constructor|exact IH].
Qed.

Lemma dead_code_addresses (symbols : gmap string Z)
    (instructions : list parsed) (l : string) (x : Z) :
  Forall label_on_marker instructions ->
  collect_symbols (dead_code_elimination symbols instructions) ∅ 0 !! l
  = Some x ->
  collect_symbols instructions ∅ 0 !! l = Some x.
Proof.
  intros Hshape. unfold dead_code_elimination.
  destruct (kept_label (referenced_labels symbols instructions) l) eqn:Hl.
  - now rewrite (collect_filter_kept _ l Hl instructions ∅ ∅ 0 eq_refl).
  - rewrite (collect_filter_dropped _ l Hl instructions Hshape).
    rewrite lookup_empty. discriminate.
Qed.

(** X22: whatever optimizations are enabled, every label in the symbol table
    that [compile] leaves behind has the address it has in the source as
    parsed: optimization may drop labels but never moves one. *)
Theorem compile_keeps_addresses (enabled : flags) (symbols : gmap string Z)
    (source l : string) (x : Z) :
  (compile enabled symbols source).1 !! l = Some x ->
  collect_symbols (parse source) ∅ 0 !! l = Some x.
Proof.
  unfold compile. cbn [fst].
  pose proof (parse_shape source) as Hshape.
  destruct (constant_folding_collect _ Hshape) as [Hfs Hfc].
  destruct enabled as [f d r s]. unfold optimize.
  cbn [constant_folding_on dead_code_elimination_on register_allocation_on
       instruction_scheduling_on].
  unfold register_allocation.
  assert (forall l : list parsed,
            (if s then instruction_scheduling l else l) = l) as Hs
    by (intros l'; destruct s; [apply instruction_scheduling_id|reflexivity]).
  rewrite Hs. destruct r, d, f; intros H;
    try (apply dead_code_addresses in H; [|assumption]);
    rewrite ?Hfc in H; exact H.
Qed.

Lemma compile_keeps_addresses_witness :
  collect_symbols
    (parse (unlines ["START:"; "ADD R1, 5, 10"; "X:"; "JUMP START"]))
    ∅ 0 !! "START" = Some 0.
Proof.
  apply (compile_keeps_addresses default_flags ∅
           (unlines ["START:"; "ADD R1, 5, 10"; "X:"; "JUMP START"])
           "START" 0).
  vm_compute. reflexivity.
Defined.

End Passes.

(** ** Labels alone on their line, and forward references *)

Section Labels.

Import AdvancedCompiler.

Lemma parse_line_mnemonic (line : string) :
  (fun p : parsed => p.1.1) <$> parse_line line
  = (fun p : parsed => p.1.1) <$> assemble_line line.
Proof.
  unfold parse_line, assemble_line.
  destruct (negb (PyStr.nonempty _)); [reflexivity|].
  destruct (PyStr.contains ":" _); [|reflexivity].
  destruct (negb (PyStr.nonempty _)); reflexivity.
Qed.

Lemma adv_statement_count (lines : list string) :
  length (List.filter takes_address (omap parse_line lines))
  = count_statements lines.
Proof.
  induction lines as [|line lines IH]; [reflexivity|].
  rewrite count_statements_cons. cbn [omap list_omap].
  pose proof (parse_line_mnemonic line) as Hm. unfold is_statement.
  destruct (parse_line line) as [[[m ops] lab]|],
    (assemble_line line) as [[[m' ops'] lab']|];
    cbn in Hm; try discriminate Hm.
  - injection Hm as <-. cbn [List.filter]. unfold takes_address at 1.
    cbn [fst]. destruct (negb (String.eqb m "LABEL")); cbn [length];
      now rewrite IH.
  - exact IH.
Qed.

Lemma parse_lines_app (l1 l2 : list string) :
  omap parse_line (l1 ++ l2) = omap parse_line l1 ++ omap parse_line l2.
Proof.
  induction l1 as [|x l1 IH]; [reflexivity|].
  cbn [app omap list_omap]. destruct (parse_line x); cbn [app];
    now rewrite IH.
Qed.

Lemma parse_lines_cons (line : string) (lines : list string) :
  omap parse_line (line :: lines)
  = match parse_line line with
    | Some ins => ins :: omap parse_line lines
    | None => omap parse_line lines
    end.
Proof. reflexivity. Qed.

Lemma collect_app (l1 l2 : list parsed) :
  forall (s : gmap string Z) (a : Z),
  exists s' : gmap string Z,
    collect_symbols (l1 ++ l2) s a
    = collect_symbols l2 s'
        (a + Z.of_nat (length (List.filter takes_address l1))).
Proof.
  induction l1 as [|[[m ops] lab] l1 IH]; intros s a.
  - exists s. cbn. f_equal. lia.
  - cbn [app collect_symbols List.filter]. unfold takes_address at 1.
    cbn [fst].
    match goal with |- context [collect_symbols (l1 ++ l2) ?s0 ?a0] =>
      destruct (IH s0 a0) as [s' Heq] end.
    exists s'. rewrite Heq. f_equal.
    destruct (negb (String.eqb m "LABEL")); cbn [length]; lia.
Qed.

Lemma collect_unbound (l : string) (instructions : list parsed) :
  Forall (fun ins : parsed => ins.2 <> Some l) instructions ->
  forall (s : gmap string Z) (a : Z),
    collect_symbols instructions s a !! l = s !! l.
Proof.
  induction 1 as [|[[m ops] lab] instrs Hins _ IH]; intros s a;
    [reflexivity|].
  cbn [collect_symbols]. rewrite IH. cbn [snd] in Hins.
  destruct lab as [l'|]; [|reflexivity].
  destruct (PyStr.nonempty l'); [|reflexivity].
  apply lookup_insert_ne. congruence.
Qed.

(** X23: in [AdvancedCompiler.compile]'s label collection a label alone on
    its line is bound to the number of statements before it, which is the
    address that the assembler gives to the statement that follows. *)
Theorem pure_label_bound (symbols : gmap string Z) (source : string)
    (before after : list string) (line l : string) :
  source_lines source = before ++ line :: after ->
  parse_line line = Some ("LABEL", [], Some l) ->
  PyStr.nonempty l = true ->
  Forall (fun x => forall ins, parse_line x = Some ins -> ins.2 <> Some l)
    after ->
  collect_symbols (parse source) symbols 0 !! l
  = Some (Z.of_nat (count_statements before)).
Proof.
  intros Hsrc Hline Hl Hafter. unfold parse.
  rewrite Hsrc, parse_lines_app, parse_lines_cons, Hline.
  destruct (collect_app (omap parse_line before)
              (("LABEL", [], Some l) :: omap parse_line after) symbols 0)
    as [s' Heq].
  refine (eq_trans (f_equal (fun m : gmap string Z => m !! l) Heq) _).
  rewrite adv_statement_count. cbn [collect_symbols]. rewrite Hl.
  rewrite collect_unbound.
  - rewrite lookup_insert_eq. f_equal.
  - clear -Hafter. induction Hafter as [|x after Hx _ IH]; [constructor|].
    rewrite parse_lines_cons. destruct (parse_line x) as [ins|] eqn:E;
      [|exact IH].
    constructor; [now apply Hx|exact IH].
Qed.

Lemma pure_label_bound_witness :
  collect_symbols (parse scenario) ∅ 0 !! "START"
  = Some (Z.of_nat (count_statements [])).
Proof.
  apply (pure_label_bound ∅ scenario []
           ["LOADI R0, 5"; "LOADI R1, 10"; "ADD R2, R0, R1"; "JUMP START";
            "HALT"] "START:" "START").
  - reflexivity.
  - reflexivity.
  - reflexivity.
  - repeat (constructor; [intros ins [= <-]; discriminate|]). constructor.
Defined.

Lemma second_pass_prefix_length (labels : gmap string Z)
    (before rest : list string) :
  Forall (fun line => encodes labels line = true) before ->
  forall (address : Z) (instructions : list (Z * Z)),
  exists new : list (Z * Z),
    length new = count_statements before
    /\ second_pass labels (before ++ rest) address instructions
       = second_pass labels rest
           (address + Z.of_nat (count_statements before))
           (instructions ++ new).
Proof.
  induction 1 as [|line before Hline _ IH]; intros address instructions.
  - exists []. split; [reflexivity|]. cbn [app]. rewrite app_nil_r. f_equal.
    unfold count_statements. cbn. lia.
  - cbn [app second_pass]. rewrite count_statements_cons.
    unfold encodes in Hline.
    destruct (assemble_line line) as [[[m ops] lab]|] eqn:El.
    + rewrite (is_statement_parsed _ _ _ _ El).
      destruct (String.eqb m "LABEL"); cbn [negb orb] in Hline |- *.
      * destruct (IH address instructions) as (new & Hlen & Heq).
        exists new. split; [exact Hlen|]. rewrite Heq. f_equal; lia.
      * destruct (encode_instruction m _) as [w|e]; [|discriminate].
        destruct (IH (address + 1) (instructions ++ [(address, w)]))
          as (new & Hlen & Heq).
        exists ((address, w) :: new). split; [cbn [length]; lia|].
        rewrite Heq, <- app_assoc. f_equal; lia.
    + rewrite (is_statement_blank _ El).
      destruct (IH address instructions) as (new & Hlen & Heq).
      exists new. split; [exact Hlen|]. rewrite Heq. f_equal; lia.
Qed.

(** On success, the statement after [before] is found at its index with its
    address and its encoding. *)
Lemma second_pass_lookup (labels : gmap string Z)
    (before after : list string) (line m : string) (ops : list string)
    (lab : option string) (result : list (Z * Z)) :
  second_pass labels (before ++ line :: after) 0 [] = Ok result ->
  assemble_line line = Some (m, ops, lab) ->
  String.eqb m "LABEL" = false ->
  exists w : Z,
    encode_instruction m (replace_labels labels ops) = Ok w
    /\ result !! count_statements before
       = Some (Z.of_nat (count_statements before), w).
Proof.
  intros H Hline Hm.
  assert (Forall (fun x => encodes labels x = true) before) as Hbefore.
  { assert (is_ok (second_pass labels (before ++ line :: after) 0 []) = true)
      as Hok by now rewrite H.
    apply second_pass_ok_inv in Hok. now apply Forall_app in Hok as [? _]. }
  destruct (second_pass_prefix_length labels before (line :: after)
              Hbefore 0 []) as (new & Hlen & Heq).
  rewrite Heq in H. cbn [second_pass app] in H. rewrite Hline, Hm in H.
  destruct (encode_instruction m _) as [w|e]; [|discriminate].
  exists w. split; [reflexivity|].
  apply second_pass_addresses in H as (new' & -> & _).
  rewrite <- app_assoc. rewrite lookup_app_r by lia.
  rewrite Hlen, Nat.sub_diag. reflexivity.
Qed.

(** X24: a [JUMP] to a label that a later line binds next to its statement
    is encoded with the address of that statement, provided the address is
    at most 63: forward references resolve. *)
Theorem forward_reference_resolves (labels : gmap string Z)
    (source : string) (l1 l2 l3 : list string) (use def l : string)
    (lab : option string) (instructions : list (Z * Z)) :
  source_lines source = l1 ++ use :: l2 ++ def :: l3 ->
  assemble_line use = Some ("JUMP", [l], lab) ->
  binds l def = true ->
  Forall (fun x => binds l x = false) l3 ->
  (count_statements (l1 ++ use :: l2) <= 63)%nat ->
  snd (assemble labels source) = Ok instructions ->
  instructions !! count_statements l1
  = Some (Z.of_nat (count_statements l1),
          0xC000 + Z.of_nat (count_statements (l1 ++ use :: l2))).
Proof.
  unfold assemble. cbn [snd]. intros Hsrc Huse Hdef Hl3 Hle H.
  rewrite Hsrc in H at 2.
  destruct (second_pass_lookup _ l1 _ use "JUMP" [l] lab _ H Huse eq_refl)
    as (w & Hw & Hat).
  rewrite Hat. do 2 f_equal.
  assert (first_pass (source_lines source) labels 0 !! l
          = Some (Z.of_nat (count_statements (l1 ++ use :: l2)))) as Hbound.
  { rewrite Hsrc.
    replace (l1 ++ use :: l2 ++ def :: l3)
      with ((l1 ++ use :: l2) ++ def :: l3)
      by now rewrite <- app_assoc.
    rewrite (first_pass_last_binding l _ l3 def labels 0 Hdef Hl3).
    f_equal. }
  unfold replace_labels in Hw. cbn [map] in Hw. rewrite Hbound in Hw.
  rewrite (encode_known "JUMP" 0xC) in Hw by reflexivity.
  change (PyStr.upper "JUMP") with "JUMP" in Hw.
  unfold encode_rule in Hw. cbn [String.eqb Ascii.eqb Bool.eqb] in Hw.
  cbn [immediate_at getitem nth_error bind] in Hw.
  rewrite parse_immediate_str in Hw by lia. cbn [bind] in Hw.
  unfold check_6bit in Hw.
  replace (Z.of_nat (count_statements (l1 ++ use :: l2)) >? 63)
    with false in Hw by lia.
  cbn [bind] in Hw. injection Hw as <-.
  rewrite pack_sum by lia. lia.
Qed.

Lemma forward_reference_resolves_witness :
  [(0, 0xC002); (1, 0x0001); (2, 0xF000)] !! count_statements []
  = Some (Z.of_nat (count_statements []),
          0xC000 + Z.of_nat (count_statements
                               ([] ++ "JUMP END" :: ["LOADI R0, 1"]))).
Proof.
  apply (forward_reference_resolves init_labels forward_inline_label
           [] ["LOADI R0, 1"] [] "JUMP END" "END: HALT" "END" None).
  - reflexivity.
  - reflexivity.
  - reflexivity.
  - constructor.
  - vm_compute. lia.
  - vm_compute. reflexivity.
Defined.



End Labels.

(** ** The trace viewer *)

Section Viewer.

Import PyStr.

Lemma length_append (s1 s2 : string) :
  String.length (s1 +:+ s2) = (String.length s1 + String.length s2)%nat.
Proof.
  induction s1 as [|c s1 IH]; [reflexivity|].
  change (String c s1 +:+ s2) with (String c (s1 +:+ s2)).
  cbn [String.length]. now rewrite IH.
Qed.

Lemma length_repeat_str (s : string) (n : Z) :
  String.length (repeat_str s n) = (Z.to_nat n * String.length s)%nat.
Proof.
  unfold repeat_str. induction (Z.to_nat n) as [|k IH]; [reflexivity|].
  rewrite Nat.iter_succ, length_append, IH. lia.
Qed.

Lemma length_drop (n : nat) :
  forall s : string, String.length (drop n s) = (String.length s - n)%nat.
Proof.
  induction n as [|n IH]; intros s; cbn [drop]; [lia|].
  destruct s as [|c s]; [reflexivity|]. cbn [String.length]. now rewrite IH.
Qed.

(** X26: for a positive width, [format_binary_value] returns exactly [width]
    characters, whatever the value: shorter values are padded, longer ones
    cut, and [x] or [z] repeated. *)
Theorem format_binary_value_length (value : string) (width : Z) :
  0 < width ->
  String.length (format_binary_value value width) = Z.to_nat width.
Proof.
  intros Hw. unfold format_binary_value.
  destruct (String.eqb_spec value "x") as [->|_];
    [cbn [orb]; rewrite length_repeat_str; cbn [String.length]; lia|].
  destruct (String.eqb_spec value "z") as [->|_];
    [cbn [orb]; rewrite length_repeat_str; cbn [String.length]; lia|].
  cbn [orb]. unfold slice_from, rjust.
  replace (- width <? 0) with true by lia.
  rewrite length_drop, !length_append, !length_repeat_str.
  cbn [String.length]. lia.
Qed.

Lemma format_binary_value_length_witness :
  String.length (format_binary_value "110011" 4) = Z.to_nat 4.
Proof. apply (format_binary_value_length "110011" 4). lia. Defined.

Lemma drop_all (s t : string) : drop (String.length s) (s +:+ t) = t.
Proof.
  induction s as [|c s IH]; [now destruct t|].
  change (String c s +:+ t) with (String c (s +:+ t)).
  cbn [String.length drop]. exact IH.
Qed.

(** X27: a value other than [x] and [z] that is no longer than a positive
    width is returned whole behind the zeros that fill the width; with a
    width of 0 the value is returned unchanged, not cut to nothing. *)
Theorem format_binary_value_padding (value : string) (width : Z) :
  value <> "x" -> value <> "z" ->
  (0 < width -> Z.of_nat (String.length value) <= width ->
   format_binary_value value width
   = repeat_str "0" (width - Z.of_nat (String.length value)) +:+ value)
  /\ format_binary_value value 0 = value.
Proof.
  intros Hx Hz. unfold format_binary_value.
  apply String.eqb_neq in Hx, Hz. rewrite Hx, Hz. cbn [orb].
  unfold slice_from, rjust. split.
  - intros Hw Hlen. replace (- width <? 0) with true by lia.
    rewrite length_append, length_repeat_str. cbn [String.length].
    replace (Z.to_nat _) with 0%nat by lia. reflexivity.
  - cbn [Z.opp Z.ltb Z.compare Z.to_nat drop]. unfold repeat_str.
    replace (Z.to_nat (0 - Z.of_nat (String.length value))) with 0%nat
      by lia.
    reflexivity.
Qed.

Lemma format_binary_value_padding_witness :
  format_binary_value "101" 8
  = repeat_str "0" (8 - Z.of_nat (String.length "101")) +:+ "101".
Proof.
  apply (proj1 (format_binary_value_padding "101" 8
                  ltac:(discriminate) ltac:(discriminate)));
    [lia|cbn [String.length]; lia].
Defined.

End Viewer.
